(** * File-browser nodes of comfyui_cmdtls: a shallow embedding

    The seven node entry points of [nodes/file_browser.py]
    ([browse_files], [read_file], [write_file], [copy_file],
    [execute_command], [create_directory], [delete_file]) are written here
    as programs of a small state-and-exception monad over an abstract host:
    the operating system and the Python standard library the nodes call
    ([pathlib], [open], [shutil], [subprocess], [json], [base64]).

    Conventions.
    - A Python [str] is a Rocq [string]; Python [int] is [Z].
    - A Python exception is a value of [exn]; only classes deriving from
      [Exception] are modelled (asynchronous interrupts are not).
    - Calls that only observe the file system ([exists], [is_dir], [stat],
      [iterdir], reading a file) are functions of the world; calls that may
      change it ([mkdir], writing, [copy2], [unlink], running a child
      process) return the next world as well. *)

From Stdlib Require Import List String Ascii ZArith Bool Lia.
From Stdlib Require Import Sorted Permutation DecimalString.
Import ListNotations.
Set Warnings "-register-all".
Local Open Scope Z_scope.
Local Open Scope string_scope.

(* ================================================================= *)
(** ** Python values *)

(** [str(n)] for an [int]. *)
Definition str_of_Z (n : Z) : string :=
  NilZero.string_of_int (Z.to_int n).

(** [s.startswith(p)]. *)
Definition startswith (s p : string) : bool := String.prefix p s.

(** Truthiness of a [str]: the empty string is false. *)
Definition truthy (s : string) : bool :=
  match s with EmptyString => false | String _ _ => true end.

(** [x if x else empty] for an optional string ([None] and the empty string
    are both false). *)
Definition or_empty (o : option string) : string :=
  match o with
  | Some s => if truthy s then s else EmptyString
  | None => EmptyString
  end.

(** A Python [float], kept as the text [repr] prints for it. *)
Record pyfloat := PyFloat { float_repr : string }.

(** Values handed to [json.dumps]. *)
Inductive json :=
| JStr (s : string)
| JInt (n : Z)
| JFloat (f : pyfloat)
| JBool (b : bool)
| JList (items : list json)
| JDict (fields : list (string * json)).

(* ================================================================= *)
(** ** Exceptions *)

Inductive exn_class :=
| Exception
| OSError | FileNotFoundError | PermissionError | FileExistsError
| IsADirectoryError | NotADirectoryError
| ValueError | UnicodeError
| LookupError | RuntimeError
| SubprocessError | TimeoutExpired.

Definition exn_class_eqb (c d : exn_class) : bool :=
  match c, d with
  | Exception, Exception | OSError, OSError
  | FileNotFoundError, FileNotFoundError | PermissionError, PermissionError
  | FileExistsError, FileExistsError | IsADirectoryError, IsADirectoryError
  | NotADirectoryError, NotADirectoryError | ValueError, ValueError
  | UnicodeError, UnicodeError | LookupError, LookupError
  | RuntimeError, RuntimeError | SubprocessError, SubprocessError
  | TimeoutExpired, TimeoutExpired => true
  | _, _ => false
  end.

(** The direct base class, as in the Python class hierarchy. *)
Definition base_class (c : exn_class) : option exn_class :=
  match c with
  | Exception => None
  | OSError | ValueError | LookupError | RuntimeError | SubprocessError =>
      Some Exception
  | FileNotFoundError | PermissionError | FileExistsError
  | IsADirectoryError | NotADirectoryError => Some OSError
  | UnicodeError => Some ValueError
  | TimeoutExpired => Some SubprocessError
  end.

Fixpoint issubclass_upto (depth : nat) (c d : exn_class) : bool :=
  exn_class_eqb c d ||
  match depth with
  | O => false
  | S depth' =>
      match base_class c with
      | Some b => issubclass_upto depth' b d
      | None => false
      end
  end.

Definition issubclass : exn_class -> exn_class -> bool := issubclass_upto 3.

(** A raised exception: its class, [str(e)], and, for
    [subprocess.TimeoutExpired], the output collected before the child was
    killed ([e.output], [e.stderr]). *)
Record exn := Exn {
  exn_cls : exn_class;
  exn_str : string;
  exn_output : option string;
  exn_stderr : option string
}.

Definition isinstance (e : exn) (c : exn_class) : bool :=
  issubclass (exn_cls e) c.

Inductive result (A : Type) :=
| Ok (a : A)
| Raise (e : exn).
Arguments Ok {A} a.
Arguments Raise {A} e.

(* ================================================================= *)
(** ** The monad of node code *)

Section Monad.
Context {W : Type}.

Definition M (A : Type) : Type := W -> result A * W.

Definition ret {A} (a : A) : M A := fun w => (Ok a, w).

Definition raise {A} (e : exn) : M A := fun w => (Raise e, w).

Definition bind {A B} (m : M A) (k : A -> M B) : M B :=
  fun w =>
    match m w with
    | (Ok a, w') => k a w'
    | (Raise e, w') => (Raise e, w')
    end.

(** An observation of the world. *)
Definition ask {A} (q : W -> result A) : M A := fun w => (q w, w).

(** A computation that does not touch the world. *)
Definition lift {A} (r : result A) : M A := fun w => (r, w).

(** The [except] clauses of a [try] statement, tried in order; an
    exception no clause matches propagates. *)
Fixpoint dispatch {A} (clauses : list (exn_class * (exn -> M A))) (e : exn)
  : M A :=
  match clauses with
  | [] => raise e
  | (cls, handler) :: rest =>
      if isinstance e cls then handler e else dispatch rest e
  end.

(** [try: body except cls1 as e: handler1(e) except cls2 as e: ...]. A
    world changed before the exception stays changed. *)
Definition try_except {A} (body : M A)
           (clauses : list (exn_class * (exn -> M A))) : M A :=
  fun w =>
    match body w with
    | (Ok a, w') => (Ok a, w')
    | (Raise e, w') => dispatch clauses e w'
    end.
End Monad.

Arguments M W A : clear implicits.

Notation "x <- m ;; k" := (bind m (fun x => k))
  (at level 61, m at next level, right associativity).
Notation "m ;;; k" := (bind m (fun _ => k))
  (at level 61, right associativity).

(* ================================================================= *)
(** ** The host: operating system and standard library *)

(** What [os.stat] reports and the nodes read. *)
Record stat_result := Stat {
  st_size : Z;
  st_mtime : pyfloat
}.

(** What a finished child process reports to [subprocess]. *)
Record child_report := Child {
  child_stdout : string;
  child_stderr : string;
  child_exit : Z
}.

Record Host := {
  World : Type;
  Path : Type;
  (* pathlib, pure part *)
  path_name : Path -> string;                    (* [p.name] *)
  path_str : Path -> string;                     (* [str(p)] *)
  path_parent : Path -> Path;                    (* [p.parent] *)
  path_match : Path -> string -> result bool;    (* [p.match(pattern)] *)
  (* observations *)
  resolve : string -> World -> result Path;      (* [Path(s).expanduser().resolve()] *)
  path_exists : Path -> World -> result bool;
  is_dir : Path -> World -> result bool;
  is_file : Path -> World -> result bool;
  is_symlink : Path -> World -> result bool;
  stat : Path -> World -> result stat_result;
  iterdir : Path -> World -> result (list Path);
  read_text : Path -> string -> World -> result string;   (* text-mode [open(p, encoding=enc).read()] *)
  read_bytes : Path -> World -> result (list ascii);      (* binary-mode [open(p).read()] *)
  (* actions *)
  mkdir : Path -> bool -> bool -> World -> result unit * World;  (* [p.mkdir(parents, exist_ok)] *)
  write_text : Path -> string -> string -> World -> result unit * World;
                                              (* path, encoding, content *)
  copy2 : Path -> Path -> World -> result unit * World;
  unlink : Path -> World -> result unit * World;
  spawn : string -> option string -> Z -> World -> result child_report * World;
  (* library functions *)
  json_dumps : json -> option nat -> string;     (* [json.dumps(v, indent=...)] *)
  b64encode : list ascii -> string;              (* [base64.b64encode(b)] decoded as ascii *)
  format_mb : Z -> string;                       (* [n / 1024 / 1024] printed with format [.2f] *)
  str_lower : string -> string                   (* [s.lower()] *)
}.

Arguments path_name {_}.
Arguments path_str {_}.
Arguments path_parent {_}.
Arguments path_match {_}.
Arguments resolve {_}.
Arguments path_exists {_}.
Arguments is_dir {_}.
Arguments is_file {_}.
Arguments is_symlink {_}.
Arguments stat {_}.
Arguments iterdir {_}.
Arguments read_text {_}.
Arguments read_bytes {_}.
Arguments mkdir {_}.
Arguments write_text {_}.
Arguments copy2 {_}.
Arguments unlink {_}.
Arguments spawn {_}.
Arguments json_dumps {_}.
Arguments b64encode {_}.
Arguments format_mb {_}.
Arguments str_lower {_}.

(* ================================================================= *)
(** ** Shared encoders *)

Section Nodes.
Variable h : Host.

Definition Prog : Type -> Type := M (World h).

(** [json.dumps({k: v, ...})] with the default layout. *)
Definition dumps (v : json) : string := json_dumps (h:=h) v None.

(** [json.dumps(v, indent=2)]. *)
Definition dumps_indent (v : json) : string := json_dumps (h:=h) v (Some 2%nat).

(** The error payload [{error: message}]. *)
Definition error_payload (message : string) : string :=
  dumps (JDict [("error", JStr message)]).

(** [subprocess.run(command, shell=True, cwd=..., capture_output=...,
    text=True, timeout=...)]: the child is run by the host; the streams of
    the returned [CompletedProcess] are [None] unless they were captured. *)
Record CompletedProcess := Completed {
  cp_stdout : option string;
  cp_stderr : option string;
  cp_returncode : Z
}.

Definition subprocess_run (command : string) (cwd : option string)
           (capture_output : bool) (timeout : Z) : Prog CompletedProcess :=
  r <- spawn (h:=h) command cwd timeout ;;
  ret {| cp_stdout := if capture_output then Some (child_stdout r) else None;
         cp_stderr := if capture_output then Some (child_stderr r) else None;
         cp_returncode := child_exit r |}.

(* ================================================================= *)
(** ** FileBrowser.browse_files *)

(** One [item_info] dictionary. *)
Record item_info := ItemInfo {
  item_name : string;
  item_path : string;
  item_size : Z;
  item_modified : pyfloat;
  item_is_dir : bool;
  item_is_file : bool;
  item_is_symlink : bool
}.

Definition item_json (i : item_info) : json :=
  JDict [("name", JStr (item_name i));
         ("path", JStr (item_path i));
         ("size", JInt (item_size i));
         ("modified", JFloat (item_modified i));
         ("is_dir", JBool (item_is_dir i));
         ("is_file", JBool (item_is_file i));
         ("is_symlink", JBool (item_is_symlink i))].

(** The dictionary display of the loop body, its values evaluated left to
    right. *)
Definition make_item_info (item : Path h) : Prog item_info :=
  isf <- ask (is_file item) ;;
  size <- (if isf : bool
           then st <- ask (stat item) ;; ret (st_size st)
           else ret 0) ;;
  st <- ask (stat item) ;;
  isd <- ask (is_dir item) ;;
  isf' <- ask (is_file item) ;;
  isl <- ask (is_symlink item) ;;
  ret {| item_name := path_name item;
         item_path := path_str item;
         item_size := size;
         item_modified := st_mtime st;
         item_is_dir := isd;
         item_is_file := isf';
         item_is_symlink := isl |}.

(** [filter_pattern == star or item.match(filter_pattern)]. *)
Definition passes_filter (filter_pattern : string) (item : Path h) : Prog bool :=
  if (filter_pattern =? "*")%string then ret true
  else lift (path_match item filter_pattern).

(** The [for item in path.iterdir()] loop; [files] and [directories] are
    the two lists being appended to. *)
Fixpoint browse_loop (show_hidden : bool) (filter_pattern : string)
         (items : list (Path h)) (files directories : list item_info)
  : Prog (list item_info * list item_info) :=
  match items with
  | [] => ret (files, directories)
  | item :: rest =>
      if negb show_hidden && startswith (path_name item) "."
      then browse_loop show_hidden filter_pattern rest files directories
      else
        info <- make_item_info item ;;
        isd <- ask (is_dir item) ;;
        if isd : bool
        then browse_loop show_hidden filter_pattern rest files
                         (directories ++ [info])%list
        else
          isf <- ask (is_file item) ;;
          if isf : bool
          then
            keep <- passes_filter filter_pattern item ;;
            if keep : bool
            then browse_loop show_hidden filter_pattern rest
                             (files ++ [info])%list directories
            else browse_loop show_hidden filter_pattern rest files directories
          else browse_loop show_hidden filter_pattern rest files directories
  end.

(** The sort key [x[name].lower()]. *)
Definition sort_key (i : item_info) : string := str_lower (h:=h) (item_name i).

(** [list.sort(key=...)]: a stable sort; [x] goes after the elements whose
    key is not greater. *)
Fixpoint insert_by_key (x : item_info) (l : list item_info) : list item_info :=
  match l with
  | [] => [x]
  | y :: l' =>
      if String.ltb (sort_key x) (sort_key y)
      then x :: y :: l'
      else y :: insert_by_key x l'
  end.

Definition sort_by_name (l : list item_info) : list item_info :=
  fold_left (fun sorted x => insert_by_key x sorted) l [].

(** The body of the inner [try]: list the directory, classify, sort. *)
Definition enumerate (path : Path h) (show_hidden : bool)
           (filter_pattern : string) : Prog (string * string * string) :=
  items <- ask (iterdir path) ;;
  lists <- browse_loop show_hidden filter_pattern items [] [] ;;
  let files := sort_by_name (fst lists) in
  let directories := sort_by_name (snd lists) in
  ret (dumps_indent (JList (map item_json files)),
       dumps_indent (JList (map item_json directories)),
       path_str path).

Definition browse_body (directory_path : string) (show_hidden : bool)
           (filter_pattern : string) : Prog (string * string * string) :=
  path <- ask (resolve directory_path) ;;
  ex <- ask (path_exists path) ;;
  if negb ex
  then ret (error_payload "Path does not exist",
            error_payload "Path does not exist",
            directory_path)
  else
    isd <- ask (is_dir path) ;;
    if negb isd
    then ret (error_payload "Path is not a directory",
              error_payload "Path is not a directory",
              directory_path)
    else
      try_except
        (enumerate path show_hidden filter_pattern)
        [(PermissionError,
          fun _ =>
            ret (error_payload "Permission denied",
                 error_payload "Permission denied",
                 path_str path))].

Definition browse_files (directory_path : string) (show_hidden : bool)
           (filter_pattern : string) : Prog (string * string * string) :=
  try_except
    (browse_body directory_path show_hidden filter_pattern)
    [(Exception,
      fun e =>
        ret (error_payload (exn_str e),
             error_payload (exn_str e),
             directory_path))].

(* ================================================================= *)
(** ** FileReader.read_file *)

Definition newline : string := String (ascii_of_nat 10) EmptyString.

(** The two ways of reading: base64 of the bytes under a marker line, or
    the decoded text. *)
Definition read_content (path : Path h) (encoding : string) : Prog string :=
  if (encoding =? "binary")%string
  then
    b <- ask (read_bytes path) ;;
    ret ("[Binary file - Base64 encoded]" ++ newline ++ b64encode (h:=h) b)
  else ask (read_text path encoding).

(** What [read_file] does once the size check has passed. *)
Definition read_and_describe (path : Path h) (encoding : string)
           (file_size : Z) : Prog (string * string) :=
  content <- read_content path encoding ;;
  st <- ask (stat path) ;;
  ret (content,
       dumps_indent (JDict [("name", JStr (path_name path));
                            ("path", JStr (path_str path));
                            ("size", JInt file_size);
                            ("modified", JFloat (st_mtime st));
                            ("encoding", JStr encoding)])).

Definition too_large_outcome (file_size max_size_mb : Z) : string * string :=
  ("Error: File too large (" ++ format_mb (h:=h) file_size ++ " MB > "
     ++ str_of_Z max_size_mb ++ " MB)",
   dumps (JDict [("error", JStr "File too large"); ("size", JInt file_size)])).

Definition read_body (file_path encoding : string) (max_size_mb : Z)
  : Prog (string * string) :=
  path <- ask (resolve file_path) ;;
  ex <- ask (path_exists path) ;;
  if negb ex
  then ret ("Error: File does not exist", error_payload "File does not exist")
  else
    isf <- ask (is_file path) ;;
    if negb isf
    then ret ("Error: Path is not a file", error_payload "Path is not a file")
    else
      st <- ask (stat path) ;;
      let file_size := st_size st in
      let max_size := max_size_mb * 1024 * 1024 in
      if file_size >? max_size
      then ret (too_large_outcome file_size max_size_mb)
      else read_and_describe path encoding file_size.

(** The [except Exception as e] clause shared by the nodes that return a
    status and a payload. *)
Definition status_error (e : exn) : Prog (string * string) :=
  ret ("Error: " ++ exn_str e, error_payload (exn_str e)).

Definition read_file (file_path encoding : string) (max_size_mb : Z)
  : Prog (string * string) :=
  try_except (read_body file_path encoding max_size_mb)
             [(Exception, status_error)].

(* ================================================================= *)
(** ** FileWriter.write_file *)

Definition write_body (file_path content encoding : string) (overwrite : bool)
  : Prog (string * string) :=
  path <- ask (resolve file_path) ;;
  ex <- ask (path_exists path) ;;
  if ex && negb overwrite
  then ret ("Error: File exists and overwrite is False",
            dumps (JDict [("error", JStr "File exists");
                          ("path", JStr (path_str path))]))
  else
    mkdir (path_parent path) true true ;;;
    write_text path encoding content ;;;
    st <- ask (stat path) ;;
    st' <- ask (stat path) ;;
    ret ("Successfully wrote " ++ str_of_Z (Z.of_nat (String.length content))
           ++ " characters to " ++ path_name path,
         dumps_indent (JDict [("name", JStr (path_name path));
                              ("path", JStr (path_str path));
                              ("size", JInt (st_size st));
                              ("modified", JFloat (st_mtime st'));
                              ("encoding", JStr encoding)])).

Definition write_file (file_path content encoding : string) (overwrite : bool)
  : Prog (string * string) :=
  try_except (write_body file_path content encoding overwrite)
             [(Exception, status_error)].

(* ================================================================= *)
(** ** FileCopy.copy_file *)

Definition copy_body (source_path destination_path : string) (overwrite : bool)
  : Prog (string * string) :=
  src <- ask (resolve source_path) ;;
  dst <- ask (resolve destination_path) ;;
  ex <- ask (path_exists src) ;;
  if negb ex
  then ret ("Error: Source file does not exist",
            error_payload "Source does not exist")
  else
    isf <- ask (is_file src) ;;
    if negb isf
    then ret ("Error: Source is not a file",
              error_payload "Source is not a file")
    else
      dex <- ask (path_exists dst) ;;
      if dex && negb overwrite
      then ret ("Error: Destination exists and overwrite is False",
                error_payload "Destination exists")
      else
        mkdir (path_parent dst) true true ;;;
        copy2 src dst ;;;
        st <- ask (stat dst) ;;
        st' <- ask (stat dst) ;;
        ret ("Successfully copied " ++ path_name src ++ " to " ++ path_str dst,
             dumps_indent (JDict [("source", JStr (path_str src));
                                  ("destination", JStr (path_str dst));
                                  ("size", JInt (st_size st));
                                  ("modified", JFloat (st_mtime st'))])).

Definition copy_file (source_path destination_path : string) (overwrite : bool)
  : Prog (string * string) :=
  try_except (copy_body source_path destination_path overwrite)
             [(Exception, status_error)].

(* ================================================================= *)
(** ** ShellExecutor.execute_command *)

(** The working-directory block: [inl] is the early return of the node,
    [inr] the directory to run in ([None] when no directory was given). *)
Definition check_working_directory (working_directory : option string)
  : Prog ((string * string * Z) + option (Path h)) :=
  match working_directory with
  | Some wd =>
      if truthy wd
      then
        cwd <- ask (resolve wd) ;;
        ex <- ask (path_exists cwd) ;;
        isd <- (if ex : bool then ask (is_dir cwd) else ret false) ;;
        if negb ex || negb isd
        then ret (inl (EmptyString,
                       "Error: Working directory does not exist: " ++ path_str cwd,
                       -1))
        else ret (inr (Some cwd))
      else ret (inr None)
  | None => ret (inr None)
  end.

(** The call of [subprocess.run] and the tuple built from its result. *)
Definition run_command (command : string) (cwd : option (Path h))
           (timeout_seconds : Z) (capture_output : bool)
  : Prog (string * string * Z) :=
  result <- subprocess_run command (option_map path_str cwd)
                           capture_output timeout_seconds ;;
  ret (or_empty (cp_stdout result),
       or_empty (cp_stderr result),
       cp_returncode result).

Definition execute_body (command : string) (working_directory : option string)
           (timeout_seconds : Z) (capture_output : bool)
  : Prog (string * string * Z) :=
  checked <- check_working_directory working_directory ;;
  match checked with
  | inl early => ret early
  | inr cwd => run_command command cwd timeout_seconds capture_output
  end.

Definition timeout_outcome (timeout_seconds : Z) : string * string * Z :=
  (EmptyString,
   "Error: Command timed out after " ++ str_of_Z timeout_seconds ++ " seconds",
   -1).

Definition execute_command (command : string) (working_directory : option string)
           (timeout_seconds : Z) (capture_output : bool)
  : Prog (string * string * Z) :=
  try_except
    (execute_body command working_directory timeout_seconds capture_output)
    [(TimeoutExpired, fun _ => ret (timeout_outcome timeout_seconds));
     (Exception, fun e => ret (EmptyString, "Error: " ++ exn_str e, -1))].

(* ================================================================= *)
(** ** DirectoryCreator.create_directory *)

Definition create_body (directory_path : string) (create_parents : bool)
  : Prog (string * string) :=
  path <- ask (resolve directory_path) ;;
  ex <- ask (path_exists path) ;;
  if ex : bool
  then
    isd <- ask (is_dir path) ;;
    if isd : bool
    then ret ("Directory already exists: " ++ path_str path,
              dumps (JDict [("path", JStr (path_str path));
                            ("exists", JBool true)]))
    else ret ("Error: Path exists but is not a directory",
              error_payload "Path is not a directory")
  else
    mkdir path create_parents true ;;;
    st <- ask (stat path) ;;
    ret ("Successfully created directory: " ++ path_str path,
         dumps_indent (JDict [("path", JStr (path_str path));
                              ("created", JBool true);
                              ("modified", JFloat (st_mtime st))])).

Definition create_directory (directory_path : string) (create_parents : bool)
  : Prog (string * string) :=
  try_except (create_body directory_path create_parents)
             [(Exception, status_error)].

(* ================================================================= *)
(** ** FileDelete.delete_file *)

(** The node returns the one-element tuple [(status,)]; its single
    component is modelled. *)

Definition delete_body (file_path : string) (confirm_delete : bool)
  : Prog string :=
  if negb confirm_delete
  then ret "Error: confirm_delete must be True to delete files"
  else
    path <- ask (resolve file_path) ;;
    ex <- ask (path_exists path) ;;
    if negb ex
    then ret ("Error: File does not exist: " ++ path_str path)
    else
      isf <- ask (is_file path) ;;
      if negb isf
      then ret ("Error: Path is not a file: " ++ path_str path)
      else
        unlink path ;;;
        ret ("Successfully deleted: " ++ path_str path).

Definition delete_file (file_path : string) (confirm_delete : bool)
  : Prog string :=
  try_except (delete_body file_path confirm_delete)
             [(Exception, fun e => ret ("Error: " ++ exn_str e))].

End Nodes.

(* ================================================================= *)
(** ** A small host to run the nodes on

    An in-memory POSIX-like file system and a table of child-process
    behaviours.  Paths are lists of components below the root.  It is one
    host among those the theorems quantify over; examples are evaluated
    on it. *)

Module Sim.

Inductive node :=
| Dir (listable : bool)
| File (size : Z) (text : string)
| Fifo.

(** What a command does when the shell runs it. *)
Inductive behaviour :=
| Exits (out err : string) (code : Z)
| Sleeps (printed : string).

Record world := {
  nodes : list (list string * node);
  programs : list (string * behaviour)
}.

Definition path : Type := list string.

Definition quote_char : string := String (ascii_of_nat 34) EmptyString.
Definition apostrophe : string := String (ascii_of_nat 39) EmptyString.

Definition join (sep : string) (parts : list string) : string :=
  String.concat sep parts.

Definition path_str (p : path) : string := "/" ++ join "/" p.

Definition path_name (p : path) : string := last p EmptyString.

Definition path_parent (p : path) : path := removelast p.

(** Shell-style matching of one name: [*] is any run of characters, [?]
    any one character. *)
Fixpoint glob (pattern name : string) : bool :=
  match pattern with
  | EmptyString => negb (truthy name)
  | String c pattern' =>
      if (c =? "*")%char
      then
        (fix star (s : string) : bool :=
           glob pattern' s ||
           match s with
           | EmptyString => false
           | String _ s' => star s'
           end) name
      else
        match name with
        | EmptyString => false
        | String d name' =>
            ((c =? "?")%char || (c =? d)%char) && glob pattern' name'
        end
  end.

Definition no_detail (cls : exn_class) (message : string) : exn :=
  {| exn_cls := cls; exn_str := message;
     exn_output := None; exn_stderr := None |}.

Definition path_match (p : path) (pattern : string) : result bool :=
  if truthy pattern then Ok (glob pattern (path_name p))
  else Raise (no_detail ValueError "empty pattern").

Fixpoint split_path (s current : string) : path :=
  match s with
  | EmptyString => if truthy current then [current] else []
  | String c rest =>
      if (c =? "/")%char
      then (if truthy current then current :: split_path rest EmptyString
            else split_path rest EmptyString)
      else split_path rest (current ++ String c EmptyString)
  end.

Fixpoint has_null (s : string) : bool :=
  match s with
  | EmptyString => false
  | String c rest => (nat_of_ascii c =? 0)%nat || has_null rest
  end.

Definition resolve (s : string) (w : world) : result path :=
  if has_null s then Raise (no_detail ValueError "embedded null byte")
  else Ok (split_path s EmptyString).

Fixpoint path_eqb (p q : path) : bool :=
  match p, q with
  | [], [] => true
  | a :: p', b :: q' => (a =? b)%string && path_eqb p' q'
  | _, _ => false
  end.

Fixpoint lookup (p : path) (l : list (path * node)) : option node :=
  match l with
  | [] => None
  | (q, n) :: l' => if path_eqb p q then Some n else lookup p l'
  end.

Definition node_at (p : path) (w : world) : option node :=
  match p with
  | [] => Some (Dir true)
  | _ => lookup p (nodes w)
  end.

Definition errno (cls : exn_class) (code what : string) (p : path) : exn :=
  no_detail cls ("[Errno " ++ code ++ "] " ++ what ++ ": "
                   ++ apostrophe ++ path_str p ++ apostrophe).

Definition no_such (p : path) : exn :=
  errno FileNotFoundError "2" "No such file or directory" p.

Definition path_exists (p : path) (w : world) : result bool :=
  Ok (match node_at p w with Some _ => true | None => false end).

Definition is_dir (p : path) (w : world) : result bool :=
  Ok (match node_at p w with Some (Dir _) => true | _ => false end).

Definition is_file (p : path) (w : world) : result bool :=
  Ok (match node_at p w with Some (File _ _) => true | _ => false end).

Definition is_symlink (p : path) (w : world) : result bool := Ok false.

Definition epoch : pyfloat := PyFloat "1700000000.0".

Definition stat (p : path) (w : world) : result stat_result :=
  match node_at p w with
  | Some (File n _) => Ok (Stat n epoch)
  | Some (Dir _) => Ok (Stat 4096 epoch)
  | Some Fifo => Ok (Stat 0 epoch)
  | None => Raise (no_such p)
  end.

Definition child_of (p : path) (entry : path * node) : bool :=
  match fst entry with
  | [] => false
  | q => path_eqb (removelast q) p
  end.

Definition iterdir (p : path) (w : world) : result (list path) :=
  match node_at p w with
  | Some (Dir true) => Ok (map fst (filter (child_of p) (nodes w)))
  | Some (Dir false) => Raise (errno PermissionError "13" "Permission denied" p)
  | Some _ => Raise (errno NotADirectoryError "20" "Not a directory" p)
  | None => Raise (no_such p)
  end.

Definition read_text (p : path) (encoding : string) (w : world)
  : result string :=
  match node_at p w with
  | Some (File _ t) => Ok t
  | Some (Dir _) => Raise (errno IsADirectoryError "21" "Is a directory" p)
  | Some Fifo => Ok EmptyString
  | None => Raise (no_such p)
  end.

Definition read_bytes (p : path) (w : world) : result (list ascii) :=
  match read_text p "latin-1" w with
  | Ok t => Ok (list_ascii_of_string t)
  | Raise e => Raise e
  end.

Fixpoint remove_path (p : path) (l : list (path * node)) : list (path * node) :=
  match l with
  | [] => []
  | (q, n) :: l' =>
      if path_eqb p q then remove_path p l' else (q, n) :: remove_path p l'
  end.

Definition put (p : path) (n : node) (w : world) : world :=
  {| nodes := (remove_path p (nodes w) ++ [(p, n)])%list;
     programs := programs w |}.

(** The proper prefixes of [p], shortest first, then [p] itself. *)
Definition lineage (p : path) : list path :=
  map (fun k => firstn k p) (seq 1 (List.length p)).

Definition ensure_dir (w : world) (p : path) : world :=
  match node_at p w with
  | Some _ => w
  | None => put p (Dir true) w
  end.

Definition mkdir (p : path) (parents exist_ok : bool) (w : world)
  : result unit * world :=
  match node_at p w with
  | Some (Dir _) =>
      if exist_ok then (Ok tt, w)
      else (Raise (errno FileExistsError "17" "File exists" p), w)
  | Some _ => (Raise (errno FileExistsError "17" "File exists" p), w)
  | None =>
      match node_at (removelast p) w with
      | Some (Dir _) => (Ok tt, put p (Dir true) w)
      | Some _ =>
          (Raise (errno NotADirectoryError "20" "Not a directory" p), w)
      | None =>
          if parents then (Ok tt, fold_left ensure_dir (lineage p) w)
          else (Raise (no_such p), w)
      end
  end.

Definition write_text (p : path) (encoding content : string) (w : world)
  : result unit * world :=
  match node_at p w with
  | Some (Dir _) => (Raise (errno IsADirectoryError "21" "Is a directory" p), w)
  | _ =>
      match node_at (removelast p) w with
      | Some (Dir _) =>
          (Ok tt, put p (File (Z.of_nat (String.length content)) content) w)
      | _ => (Raise (no_such p), w)
      end
  end.

Definition copy2 (src dst : path) (w : world) : result unit * world :=
  match node_at src w with
  | Some (File n t) =>
      match node_at (removelast dst) w with
      | Some (Dir _) => (Ok tt, put dst (File n t) w)
      | _ => (Raise (no_such dst), w)
      end
  | Some _ => (Raise (errno IsADirectoryError "21" "Is a directory" src), w)
  | None => (Raise (no_such src), w)
  end.

Definition unlink (p : path) (w : world) : result unit * world :=
  match node_at p w with
  | Some (Dir _) => (Raise (errno IsADirectoryError "21" "Is a directory" p), w)
  | Some _ =>
      (Ok tt, {| nodes := remove_path p (nodes w); programs := programs w |})
  | None => (Raise (no_such p), w)
  end.

Fixpoint behaviour_of (command : string) (l : list (string * behaviour))
  : option behaviour :=
  match l with
  | [] => None
  | (c, b) :: l' => if (c =? command)%string then Some b else behaviour_of command l'
  end.

(** Children of this host leave the file system alone. *)
Definition spawn (command : string) (cwd : option string) (timeout : Z)
           (w : world) : result child_report * world :=
  match behaviour_of command (programs w) with
  | Some (Exits out err code) => (Ok (Child out err code), w)
  | Some (Sleeps printed) =>
      (Raise {| exn_cls := TimeoutExpired;
                exn_str := "Command " ++ apostrophe ++ command ++ apostrophe
                             ++ " timed out after " ++ str_of_Z timeout
                             ++ " seconds";
                exn_output := Some printed;
                exn_stderr := Some EmptyString |}, w)
  | None =>
      (Ok (Child EmptyString ("/bin/sh: 1: " ++ command ++ ": not found" ++ newline)
                 127), w)
  end.

(** *** Library functions of the host *)

Definition hex_digit (n : nat) : string :=
  String.substring n 1 "0123456789abcdef".

Definition backslash : string := String (ascii_of_nat 92) EmptyString.

(** One character of a JSON string, as [json.dumps] writes it with
    [ensure_ascii]. *)
Definition escape_char (c : ascii) : string :=
  let n := nat_of_ascii c in
  if (n =? 34)%nat then backslash ++ quote_char
  else if (n =? 92)%nat then backslash ++ backslash
  else if (n =? 10)%nat then backslash ++ "n"
  else if (n =? 13)%nat then backslash ++ "r"
  else if (n =? 9)%nat then backslash ++ "t"
  else if (n =? 8)%nat then backslash ++ "b"
  else if (n =? 12)%nat then backslash ++ "f"
  else if ((n <? 32) || (126 <? n))%nat
       then backslash ++ "u00" ++ hex_digit (n / 16) ++ hex_digit (n mod 16)
       else String c EmptyString.

Fixpoint escape (s : string) : string :=
  match s with
  | EmptyString => EmptyString
  | String c rest => escape_char c ++ escape rest
  end.

Definition json_string (s : string) : string :=
  quote_char ++ escape s ++ quote_char.

Fixpoint spaces (n : nat) : string :=
  match n with
  | O => EmptyString
  | S n' => String " " (spaces n')
  end.

(** The text between two items, before the first and after the last, at
    nesting depth [level]. *)
Definition item_break (indent : option nat) (level : nat) : string :=
  match indent with
  | Some k => newline ++ spaces (k * level)
  | None => EmptyString
  end.

Definition item_separator (indent : option nat) (level : nat) : string :=
  match indent with
  | Some _ => "," ++ item_break indent level
  | None => ", "
  end.

Fixpoint dumps_at (indent : option nat) (level : nat) (v : json) : string :=
  match v with
  | JStr s => json_string s
  | JInt n => str_of_Z n
  | JFloat f => float_repr f
  | JBool b => if b then "true" else "false"
  | JList [] => "[]"
  | JList items =>
      "[" ++ item_break indent (S level)
          ++ join (item_separator indent (S level))
                  (map (dumps_at indent (S level)) items)
          ++ item_break indent level ++ "]"
  | JDict [] => "{}"
  | JDict fields =>
      "{" ++ item_break indent (S level)
          ++ join (item_separator indent (S level))
                  (map (fun kv =>
                          let '(k, x) := kv in
                          json_string k ++ ": " ++ dumps_at indent (S level) x)
                       fields)
          ++ item_break indent level ++ "}"
  end.

Definition json_dumps (v : json) (indent : option nat) : string :=
  dumps_at indent 0 v.

Definition b64_alphabet : string :=
  "ABCDEFGHIJKLMNOPQRSTUVWXYZabcdefghijklmnopqrstuvwxyz0123456789+/".

Definition b64_digit (n : nat) : string := String.substring n 1 b64_alphabet.

Fixpoint b64encode (bytes : list ascii) : string :=
  match bytes with
  | [] => EmptyString
  | [a] =>
      let x := nat_of_ascii a in
      b64_digit (x / 4) ++ b64_digit (x mod 4 * 16) ++ "=="
  | [a; b] =>
      let x := nat_of_ascii a in
      let y := nat_of_ascii b in
      b64_digit (x / 4) ++ b64_digit (x mod 4 * 16 + y / 16)
        ++ b64_digit (y mod 16 * 4) ++ "="
  | a :: b :: c :: rest =>
      let x := nat_of_ascii a in
      let y := nat_of_ascii b in
      let z := nat_of_ascii c in
      b64_digit (x / 4) ++ b64_digit (x mod 4 * 16 + y / 16)
        ++ b64_digit (y mod 16 * 4 + z / 64) ++ b64_digit (z mod 64)
        ++ b64encode rest
  end.

(** [n / 1024 / 1024] to two decimals, rounding half to even; exact for
    the sizes a double represents exactly. *)
Definition format_mb (n : Z) : string :=
  let num := n * 100 in
  let den := 1024 * 1024 in
  let q := num / den in
  let r := num mod den in
  let q' := if ((den <? 2 * r) || ((den =? 2 * r) && Z.odd q))%Z
            then q + 1 else q in
  let cents := q' mod 100 in
  str_of_Z (q' / 100) ++ "."
    ++ (if (cents <? 10)%Z then "0" else EmptyString) ++ str_of_Z cents.

Definition lower_char (c : ascii) : ascii :=
  let n := nat_of_ascii c in
  if ((65 <=? n) && (n <=? 90))%nat then ascii_of_nat (n + 32) else c.

(** [s.lower()] on ASCII text. *)
Fixpoint str_lower (s : string) : string :=
  match s with
  | EmptyString => EmptyString
  | String c rest => String (lower_char c) (str_lower rest)
  end.

Definition host : Host :=
  Build_Host world path
             path_name path_str path_parent path_match
             resolve path_exists is_dir is_file is_symlink stat iterdir
             read_text read_bytes
             mkdir write_text copy2 unlink spawn
             json_dumps b64encode format_mb str_lower.

(** A sample world: a project directory with two files, a hidden file, a
    subdirectory and a FIFO; a large file; a directory that cannot be
    listed; and four commands. *)
Definition sample : world := {|
  nodes :=
    [ (["home"], Dir true);
      (["home"; "proj"], Dir true);
      (["home"; "proj"; "b.py"], File 9 "print(42)");
      (["home"; "proj"; "a.txt"], File 5 "hello");
      (["home"; "proj"; "Sub"], Dir true);
      (["home"; "proj"; ".git"], Dir true);
      (["home"; "proj"; "pipe"], Fifo);
      (["home"; "proj"; "Zed.txt"], File 0 EmptyString);
      (["home"; "big.bin"], File 2097152 "stub");
      (["home"; "secret"], Dir false) ];
  programs :=
    [ ("echo hi", Exits ("hi" ++ newline) EmptyString 0);
      ("exit 7", Exits EmptyString EmptyString 7);
      ("sleep 5", Sleeps "partial");
      ("kill -HUP $$", Exits EmptyString EmptyString (-1)) ]
|}.

(** The project directory of the sample world, its children in the order
    the host lists them, and the dictionary of one child. *)
Definition proj : path := ["home"; "proj"].

Definition children : list path :=
  [ ["home"; "proj"; "b.py"]; ["home"; "proj"; "a.txt"];
    ["home"; "proj"; "Sub"]; ["home"; "proj"; ".git"];
    ["home"; "proj"; "pipe"]; ["home"; "proj"; "Zed.txt"] ].

Definition entry (name : string) (size : Z) (dir file : bool) : item_info :=
  ItemInfo name ("/home/proj/" ++ name) size epoch dir file false.

End Sim.

(* ================================================================= *)
(** ** Vocabulary of the properties *)



(** The reading of [carry the same error] under which all three outputs
    of [browse_files] are the same error payload. *)
Definition three_channels_carry_error (h : Host)
           (out : string * string * string) : Prop :=
  exists message,
    out = (error_payload h message, error_payload h message,
           error_payload h message).

(** The reading of [-1 is reserved] for [execute_command]: no run in which
    [subprocess.run] returned a [CompletedProcess] yields exit code [-1]. *)
Definition minus_one_reserved (h : Host) : Prop :=
  forall command working_directory timeout_seconds capture_output
         w cwd w1 cp w2 out w',
    check_working_directory h working_directory w = (Ok (inr cwd), w1) ->
    subprocess_run h command (option_map path_str cwd) capture_output
                   timeout_seconds w1 = (Ok cp, w2) ->
    execute_command h command working_directory timeout_seconds
                    capture_output w = (Ok out, w') ->
    snd out <> -1.

(** A child that is visited rather than skipped as hidden. *)
Definition visible (h : Host) (show_hidden : bool) (item : Path h) : bool :=
  negb (negb show_hidden && startswith (path_name item) ".").

(** The filter lets [item] through. *)
Definition passes (h : Host) (filter_pattern : string) (item : Path h) : Prop :=
  filter_pattern = "*" \/ path_match item filter_pattern = Ok true.

(** [info] is the dictionary the loop builds for [item] in world [w]. *)
Definition entry_of (h : Host) (w : World h) (item : Path h)
           (info : item_info) : Prop :=
  fst (make_item_info h item w) = Ok info.

(** One turn of the loop of [browse_files] on [item] in world [w], from
    the lists [files] and [directories] to the lists after the turn. *)
Inductive loop_step (h : Host) (show_hidden : bool) (filter_pattern : string)
          (w : World h) (item : Path h) (files directories : list item_info)
  : list item_info -> list item_info -> Prop :=
| step_hidden :
    visible h show_hidden item = false ->
    loop_step h show_hidden filter_pattern w item files directories
              files directories
| step_directory info :
    visible h show_hidden item = true ->
    entry_of h w item info ->
    is_dir item w = Ok true ->
    loop_step h show_hidden filter_pattern w item files directories
              files (directories ++ [info])%list
| step_file info :
    visible h show_hidden item = true ->
    entry_of h w item info ->
    is_dir item w = Ok false ->
    is_file item w = Ok true ->
    passes h filter_pattern item ->
    loop_step h show_hidden filter_pattern w item files directories
              (files ++ [info])%list directories
| step_filtered info :
    visible h show_hidden item = true ->
    entry_of h w item info ->
    is_dir item w = Ok false ->
    is_file item w = Ok true ->
    ~ passes h filter_pattern item ->
    loop_step h show_hidden filter_pattern w item files directories
              files directories
| step_other info :
    visible h show_hidden item = true ->
    entry_of h w item info ->
    is_dir item w = Ok false ->
    is_file item w = Ok false ->
    loop_step h show_hidden filter_pattern w item files directories
              files directories.


(** An [INT] input as [INPUT_TYPES] declares it. *)
Record int_input := IntInput {
  int_default : Z;
  int_min : Z;
  int_max : Z
}.

(** [FileReader.INPUT_TYPES], input [max_size_mb]. *)
Definition max_size_mb_input : int_input := IntInput 10 1 100.

(** A value the declaration admits. *)
Definition admits (i : int_input) (n : Z) : Prop :=
  int_min i <= n <= int_max i.

(* ================================================================= *)
(** ** A host whose text files are checked against their codec

    The sample host again, except that writing text under the [ascii]
    codec fails on a character above 127, after [open] has created or
    emptied the file; that a command with a null character cannot be
    started; and that probing below an unsearchable directory raises. *)

Module Strict.

Fixpoint is_ascii (s : string) : bool :=
  match s with
  | EmptyString => true
  | String c rest => (nat_of_ascii c <? 128)%nat && is_ascii rest
  end.

Definition cannot_encode : exn :=
  Sim.no_detail UnicodeError
    "'ascii' codec can't encode characters: ordinal not in range(128)".

Definition write_text (p : Sim.path) (encoding content : string)
           (w : Sim.world) : result unit * Sim.world :=
  if (encoding =? "ascii")%string && negb (is_ascii content)
  then
    match Sim.write_text p encoding EmptyString w with
    | (Ok _, w') => (Raise cannot_encode, w')
    | failed => failed
    end
  else Sim.write_text p encoding content w.

(** A command with a null character cannot be handed to the shell. *)
Definition spawn (command : string) (cwd : option string) (timeout : Z)
           (w : Sim.world) : result child_report * Sim.world :=
  if Sim.has_null command
  then (Raise (Sim.no_detail ValueError "embedded null byte"), w)
  else Sim.spawn command cwd timeout w.

(** Some directory above [p] (one of the first [n] of its proper
    prefixes) cannot be searched. *)
Fixpoint blocked_above (n : nat) (p : Sim.path) (w : Sim.world) : bool :=
  match n with
  | O => false
  | S n' =>
      match Sim.node_at (firstn n' p) w with
      | Some (Sim.Dir false) => true
      | _ => blocked_above n' p w
      end
  end.

(** Probing below a directory that cannot be searched raises. *)
Definition path_exists (p : Sim.path) (w : Sim.world) : result bool :=
  if blocked_above (List.length p) p w
  then Raise (Sim.errno PermissionError "13" "Permission denied" p)
  else Sim.path_exists p w.

Definition host : Host :=
  Build_Host Sim.world Sim.path
             Sim.path_name Sim.path_str Sim.path_parent Sim.path_match
             Sim.resolve path_exists Sim.is_dir Sim.is_file
             Sim.is_symlink Sim.stat Sim.iterdir
             Sim.read_text Sim.read_bytes
             Sim.mkdir write_text Sim.copy2 Sim.unlink spawn
             Sim.json_dumps Sim.b64encode Sim.format_mb Sim.str_lower.

(** The letter e with an acute accent, as one Latin-1 character. *)
Definition e_acute : string := String (ascii_of_nat 233) EmptyString.

(** The sample world with a file of two hundred mebibytes. *)
Definition archive : Sim.world :=
  Sim.put ["home"; "huge.iso"] (Sim.File 209715200 "stub") Sim.sample.

End Strict.

(* ================================================================= *)
(** ** Tactics for stepping through a node *)

(** Use the answer [H] of a host call and reduce the branch it selects. *)
Ltac feed H := rewrite H; cbv beta iota; cbn [negb andb orb].

(** Split on the answer of the host call the goal branches on. *)
Ltac case_call :=
  match goal with
  | |- context [match ?q ?p ?w with Ok _ => _ | Raise _ => _ end] =>
      destruct (q p w) as [[|]|] eqn:?
  | |- context [match ?q ?p ?w with Ok _ => _ | Raise _ => _ end] =>
      destruct (q p w) as [|] eqn:?
  end; cbv beta iota.

(* ================================================================= *)
(** ** Exceptions and the monad *)

Lemma issubclass_Exception (c : exn_class) : issubclass c Exception = true.
Proof. destruct c; reflexivity. Qed.

Lemma isinstance_Exception (e : exn) : isinstance e Exception = true.
Proof. apply issubclass_Exception. Qed.




(* ================================================================= *)
(** ** No exception leaves a node *)




(* ================================================================= *)
(** ** delete_file without confirmation *)

(** C2. With [confirm_delete] false, [delete_file] returns the
    confirmation message for every [file_path], on every host and in every
    world, and the world it leaves is the world it started from: the answer
    is fixed before the path is resolved, whatever resolving it would have
    done (raise on a malformed path, or report a missing file). *)
Theorem delete_unconfirmed_touches_nothing (h : Host) (file_path : string)
        (w : World h) :
  delete_file h file_path false w
  = (Ok "Error: confirm_delete must be True to delete files", w).
Proof. reflexivity. Qed.

(* ================================================================= *)
(** ** execute_command *)

Section Exec.
Variable h : Host.
Variables (command : string) (working_directory : option string).
Variables (timeout_seconds : Z) (capture_output : bool).
Variables (w w1 w2 : World h) (cwd : option (Path h)).

(** The working-directory block let the command through, to run in [cwd]
    from world [w1]. *)
Hypothesis checked :
  check_working_directory h working_directory w = (Ok (inr cwd), w1).

Lemma execute_command_after_check :
  execute_command h command working_directory timeout_seconds capture_output w
  = try_except
      (run_command h command cwd timeout_seconds capture_output)
      [(TimeoutExpired, fun _ => ret (timeout_outcome timeout_seconds));
       (Exception, fun e => ret (EmptyString, "Error: " ++ exn_str e, -1))]
      w1.
Proof.
  unfold execute_command, try_except, execute_body, bind.
  now rewrite checked.
Qed.

(** C4. When the child outlives the time-out, that is when
    [subprocess.run] raises [TimeoutExpired], the node returns the empty
    string, the message naming [timeout_seconds], and [-1]; whatever the
    exception carries of the output printed so far is not returned. *)
Theorem timeout_gives_empty_output_and_minus_one (e : exn) :
  subprocess_run h command (option_map path_str cwd) capture_output
                 timeout_seconds w1 = (Raise e, w2) ->
  isinstance e TimeoutExpired = true ->
  execute_command h command working_directory timeout_seconds capture_output w
  = (Ok (EmptyString,
         "Error: Command timed out after " ++ str_of_Z timeout_seconds
           ++ " seconds",
         -1), w2).
Proof.
  intros Hrun Hcls. rewrite execute_command_after_check.
  unfold try_except, run_command, bind. rewrite Hrun. simpl.
  now rewrite Hcls.
Qed.

(** C5, as the code has it. When [subprocess.run] returns, the node
    returns the captured streams (empty where there is none) and the
    return code of the child unchanged, whatever integer it is. *)
Theorem completed_run_passes_return_code (cp : CompletedProcess) :
  subprocess_run h command (option_map path_str cwd) capture_output
                 timeout_seconds w1 = (Ok cp, w2) ->
  execute_command h command working_directory timeout_seconds capture_output w
  = (Ok (or_empty (cp_stdout cp), or_empty (cp_stderr cp), cp_returncode cp),
     w2).
Proof.
  intros Hrun. rewrite execute_command_after_check.
  unfold try_except, run_command, bind. now rewrite Hrun.
Qed.

End Exec.

(** C10. Without [capture_output], a child that ran to completion gives
    two empty strings and its exit code, whatever it printed. *)
Theorem uncaptured_run_returns_empty_streams (h : Host)
        (command : string) (working_directory : option string)
        (timeout_seconds : Z) (w w1 w2 : World h) (cwd : option (Path h))
        (report : child_report) :
  check_working_directory h working_directory w = (Ok (inr cwd), w1) ->
  spawn command (option_map path_str cwd) timeout_seconds w1
  = (Ok report, w2) ->
  execute_command h command working_directory timeout_seconds false w
  = (Ok (EmptyString, EmptyString, child_exit report), w2).
Proof.
  intros Hcheck Hspawn.
  rewrite (execute_command_after_check h _ _ _ _ _ _ _ Hcheck).
  unfold try_except, run_command, subprocess_run, bind.
  now rewrite Hspawn.
Qed.

(* ================================================================= *)
(** ** read_file and the size ceiling *)

(** C6. For an existing regular file: when its size exceeds
    [max_size_mb * 1024 * 1024] the node returns the too-large message and
    a payload carrying the size reported by [stat], without reading the
    file (the outcome is built from the size alone); when the size is at
    most the ceiling the node goes on to read and describe the file. *)
Theorem read_file_size_ceiling (h : Host) (file_path encoding : string)
        (max_size_mb : Z) (w : World h) (path : Path h) (st : stat_result) :
  resolve file_path w = Ok path ->
  path_exists path w = Ok true ->
  is_file path w = Ok true ->
  stat path w = Ok st ->
  (st_size st > max_size_mb * 1024 * 1024 ->
   read_file h file_path encoding max_size_mb w
   = (Ok ("Error: File too large (" ++ format_mb (h:=h) (st_size st)
            ++ " MB > " ++ str_of_Z max_size_mb ++ " MB)",
          dumps h (JDict [("error", JStr "File too large");
                          ("size", JInt (st_size st))])),
      w))
  /\ (st_size st <= max_size_mb * 1024 * 1024 ->
      read_file h file_path encoding max_size_mb w
      = try_except (read_and_describe h path encoding (st_size st))
                   [(Exception, status_error h)] w).
Proof.
  intros Hres Hex Hfile Hstat.
  unfold read_file, read_body.
  split; intros Hsize; unfold try_except at 1; unfold bind, ask;
    feed Hres; feed Hex; feed Hfile; feed Hstat; cbv zeta.
  - replace (st_size st >? max_size_mb * 1024 * 1024) with true
      by (symmetry; apply Z.gtb_lt; lia).
    reflexivity.
  - replace (st_size st >? max_size_mb * 1024 * 1024) with false
      by (symmetry; rewrite Z.gtb_ltb; apply Z.ltb_ge; lia).
    reflexivity.
Qed.

(* ================================================================= *)
(** ** create_directory on an existing path *)

(** C7. On a path that exists as a directory, [create_directory] reports
    that it exists, with [exists] true in the payload, and leaves the world
    as it found it, so a second call returns the same and the world after
    two calls is the world after one; on a path that exists and is not a
    directory it returns the not-a-directory error. *)
Theorem create_directory_existing (h : Host) (directory_path : string)
        (create_parents : bool) (w : World h) (path : Path h) :
  resolve directory_path w = Ok path ->
  path_exists path w = Ok true ->
  (is_dir path w = Ok true ->
   let once := create_directory h directory_path create_parents in
   once w
   = (Ok ("Directory already exists: " ++ path_str path,
          dumps h (JDict [("path", JStr (path_str path));
                          ("exists", JBool true)])),
      w)
   /\ (once ;;; once) w = once w)
  /\ (is_dir path w = Ok false ->
      create_directory h directory_path create_parents w
      = (Ok ("Error: Path exists but is not a directory",
             error_payload h "Path is not a directory"),
         w)).
Proof.
  intros Hres Hex.
  assert (Hdir : is_dir path w = Ok true ->
                 create_directory h directory_path create_parents w
                 = (Ok ("Directory already exists: " ++ path_str path,
                        dumps h (JDict [("path", JStr (path_str path));
                                        ("exists", JBool true)])),
                    w)).
  { intros Hd. unfold create_directory, create_body, try_except, bind, ask.
    feed Hres. feed Hex. now feed Hd. }
  split.
  - intros Hd once. subst once. split; [now apply Hdir |].
    unfold bind. rewrite (Hdir Hd). now apply Hdir.
  - intros Hd. unfold create_directory, create_body, try_except, bind, ask.
    feed Hres. feed Hex. now feed Hd.
Qed.

(* ================================================================= *)
(** ** browse_files: the failure returns *)

(** C3, as the code has it. When the path does not exist, is not a
    directory, or listing it meets a [PermissionError], the files output
    and the directories output are the same error payload; the third
    output is a path: the input as given in the first two cases, the
    resolved path in the third. *)
Theorem browse_failure_channels (h : Host) (directory_path : string)
        (show_hidden : bool) (filter_pattern : string) (w : World h)
        (path : Path h) :
  resolve directory_path w = Ok path ->
  (path_exists path w = Ok false ->
   browse_files h directory_path show_hidden filter_pattern w
   = (Ok (error_payload h "Path does not exist",
          error_payload h "Path does not exist",
          directory_path), w))
  /\ (path_exists path w = Ok true ->
      is_dir path w = Ok false ->
      browse_files h directory_path show_hidden filter_pattern w
      = (Ok (error_payload h "Path is not a directory",
             error_payload h "Path is not a directory",
             directory_path), w))
  /\ (forall e w',
         path_exists path w = Ok true ->
         is_dir path w = Ok true ->
         enumerate h path show_hidden filter_pattern w = (Raise e, w') ->
         isinstance e PermissionError = true ->
         browse_files h directory_path show_hidden filter_pattern w
         = (Ok (error_payload h "Permission denied",
                error_payload h "Permission denied",
                path_str path), w')).
Proof.
  intros Hres. unfold browse_files, browse_body.
  repeat split.
  - intros Hex. unfold try_except, bind, ask. feed Hres. now feed Hex.
  - intros Hex Hd. unfold try_except, bind, ask.
    feed Hres. feed Hex. now feed Hd.
  - intros e w' Hex Hd Henum Hcls.
    unfold try_except, bind, ask. feed Hres. feed Hex. feed Hd.
    feed Henum. cbn [dispatch]. now rewrite Hcls.
Qed.

(* ================================================================= *)
(** ** browse_files: the loop *)

Section Listing.
Variable h : Host.
Variables (show_hidden : bool) (filter_pattern : string).

Lemma make_item_info_world (item : Path h) (w : World h) :
  snd (make_item_info h item w) = w.
Proof.
  unfold make_item_info, bind, ask, ret.
  repeat (case_call; try reflexivity).
Qed.

Lemma make_item_info_fields (item : Path h) (w : World h) (info : item_info) :
  entry_of h w item info ->
  is_dir item w = Ok (item_is_dir info)
  /\ is_file item w = Ok (item_is_file info)
  /\ item_name info = path_name item
  /\ item_path info = path_str item.
Proof.
  unfold entry_of, make_item_info, bind, ask, ret.
  repeat (case_call; cbn [fst]; try discriminate);
    intros [= <-]; cbn; auto.
Qed.

Lemma browse_loop_cons (item : Path h) (rest : list (Path h))
      (files directories : list item_info) (w w' : World h)
      (lists : list item_info * list item_info) :
  browse_loop h show_hidden filter_pattern (item :: rest) files directories w
  = (Ok lists, w') ->
  exists files1 directories1,
    loop_step h show_hidden filter_pattern w item files directories
              files1 directories1
    /\ browse_loop h show_hidden filter_pattern rest files1 directories1 w
       = (Ok lists, w').
Proof.
  cbn [browse_loop].
  destruct (negb show_hidden && startswith (path_name item) ".") eqn:Hhid.
  - intros Hrest. exists files, directories. split; [| exact Hrest].
    apply step_hidden. unfold visible. now rewrite Hhid.
  - assert (Hvis : visible h show_hidden item = true)
      by (unfold visible; now rewrite Hhid).
    unfold bind at 1.
    pose proof (make_item_info_world item w) as Hw.
    destruct (make_item_info h item w) as [[info | e] w0] eqn:Hinfo;
      cbn in Hw; subst w0; [| discriminate].
    assert (Hentry : entry_of h w item info)
      by (unfold entry_of; now rewrite Hinfo).
    unfold bind at 1, ask at 1.
    destruct (is_dir item w) as [[|] | e] eqn:Hd; [| | discriminate].
    + intros Hrest. exists files, (directories ++ [info])%list.
      split; [now apply step_directory with (info := info) | exact Hrest].
    + unfold bind at 1, ask at 1.
      destruct (is_file item w) as [[|] | e] eqn:Hf; [| | discriminate].
      * unfold bind at 1, passes_filter, ret at 1, lift.
        destruct (filter_pattern =? "*")%string eqn:Hstar.
        -- intros Hrest. exists (files ++ [info])%list, directories.
           split; [| exact Hrest].
           apply step_file with (info := info); auto.
           left. now apply String.eqb_eq.
        -- destruct (path_match item filter_pattern) as [[|] | e] eqn:Hm;
             [| | discriminate].
           ++ intros Hrest. exists (files ++ [info])%list, directories.
              split; [| exact Hrest].
              apply step_file with (info := info); auto. now right.
           ++ intros Hrest. exists files, directories.
              split; [| exact Hrest].
              apply step_filtered with (info := info); auto.
              intros [Heq | Hyes]; [| congruence].
              apply String.eqb_neq in Hstar. contradiction.
      * intros Hrest. exists files, directories. split; [| exact Hrest].
        now apply step_other with (info := info).
Qed.

(** What a finished loop has appended: [fs] to the files, [ds] to the
    directories. *)
Lemma browse_loop_sound (items : list (Path h)) :
  forall (files directories files' directories' : list item_info)
         (w w' : World h),
    browse_loop h show_hidden filter_pattern items files directories w
    = (Ok (files', directories'), w') ->
    w' = w
    /\ exists fs ds,
        files' = (files ++ fs)%list
        /\ directories' = (directories ++ ds)%list
        /\ (forall info, In info ds ->
              exists item, In item items
                /\ visible h show_hidden item = true
                /\ entry_of h w item info
                /\ is_dir item w = Ok true)
        /\ (forall info, In info fs ->
              exists item, In item items
                /\ visible h show_hidden item = true
                /\ entry_of h w item info
                /\ is_dir item w = Ok false
                /\ is_file item w = Ok true
                /\ passes h filter_pattern item)
        /\ (forall item, In item items ->
              visible h show_hidden item = true ->
              exists info, entry_of h w item info
                /\ (is_dir item w = Ok true -> In info ds)
                /\ (is_dir item w = Ok false -> is_file item w = Ok true ->
                    passes h filter_pattern item -> In info fs)).
Proof.
  induction items as [| item rest IH]; intros files directories files'
    directories' w w' Hloop.
  - cbn in Hloop. injection Hloop as <- <- <-.
    split; [reflexivity |]. exists [], [].
    rewrite !app_nil_r. repeat split; intros; contradiction.
  - apply browse_loop_cons in Hloop as (files1 & dirs1 & Hstep & Hrest).
    apply IH in Hrest as (-> & fs & ds & -> & -> & Hds & Hfs & Hall).
    split; [reflexivity |].
    assert (Hds' : forall info, In info ds ->
              exists it, In it (item :: rest)
                /\ visible h show_hidden it = true
                /\ entry_of h w it info /\ is_dir it w = Ok true).
    { intros info Hin. destruct (Hds info Hin) as (it & ? & ?).
      exists it. split; [now right | assumption]. }
    assert (Hfs' : forall info, In info fs ->
              exists it, In it (item :: rest)
                /\ visible h show_hidden it = true
                /\ entry_of h w it info /\ is_dir it w = Ok false
                /\ is_file it w = Ok true /\ passes h filter_pattern it).
    { intros info Hin. destruct (Hfs info Hin) as (it & ? & ?).
      exists it. split; [now right | assumption]. }
    inversion Hstep as [Hvis | info Hvis Hentry Hd | info Hvis Hentry Hd Hf Hp
                        | info Hvis Hentry Hd Hf Hp | info Hvis Hentry Hd Hf];
      subst.
    + exists fs, ds. repeat split; auto.
      intros it [<- | Hin] Hv; [congruence | now apply Hall].
    + exists fs, (info :: ds). rewrite <- app_assoc. repeat split; auto.
      * intros i [<- | Hin]; [| now apply Hds'].
        exists item. repeat split; auto. now left.
      * intros it [<- | Hin] Hv.
        -- exists info. repeat split; auto; [now left | congruence].
        -- destruct (Hall it Hin Hv) as (i & ? & ? & ?).
           exists i. repeat split; auto. intros. right. auto.
    + exists (info :: fs), ds. rewrite <- app_assoc. repeat split; auto.
      * intros i [<- | Hin]; [| now apply Hfs'].
        exists item. repeat split; auto. now left.
      * intros it [<- | Hin] Hv.
        -- exists info. repeat split; auto; [congruence | now left].
        -- destruct (Hall it Hin Hv) as (i & ? & ? & ?).
           exists i. repeat split; auto. intros. right. auto.
    + exists fs, ds. repeat split; auto.
      intros it [<- | Hin] Hv; [| now apply Hall].
      exists info. repeat split; auto; [congruence | contradiction].
    + exists fs, ds. repeat split; auto.
      intros it [<- | Hin] Hv; [| now apply Hall].
      exists info. repeat split; auto; congruence.
Qed.

(** *** The sort *)



Lemma insert_by_key_perm (x : item_info) (l : list item_info) :
  Permutation (insert_by_key h x l) (x :: l).
Proof.
  induction l as [| y l IH]; cbn; [reflexivity |].
  destruct (String.ltb (sort_key h x) (sort_key h y)); [reflexivity |].
  rewrite IH. apply perm_swap.
Qed.


Lemma sort_from_perm (l acc : list item_info) :
  Permutation (fold_left (fun sorted x => insert_by_key h x sorted) l acc)
              (acc ++ l)%list.
Proof.
  revert acc. induction l as [| x l IH]; intros acc; cbn.
  - now rewrite app_nil_r.
  - rewrite IH, insert_by_key_perm. apply Permutation_middle.
Qed.


Lemma sort_by_name_perm (l : list item_info) :
  Permutation (sort_by_name h l) l.
Proof. apply (sort_from_perm l []). Qed.


Lemma sort_by_name_in (l : list item_info) (x : item_info) :
  In x (sort_by_name h l) <-> In x l.
Proof.
  split; apply Permutation_in;
    [apply sort_by_name_perm | symmetry; apply sort_by_name_perm].
Qed.

(** *** A listing that succeeds *)

Lemma browse_files_success (directory_path : string) (w w' : World h)
      (path : Path h) (items : list (Path h))
      (files directories : list item_info) :
  resolve directory_path w = Ok path ->
  path_exists path w = Ok true ->
  is_dir path w = Ok true ->
  iterdir path w = Ok items ->
  browse_loop h show_hidden filter_pattern items [] [] w
  = (Ok (files, directories), w') ->
  browse_files h directory_path show_hidden filter_pattern w
  = (Ok (dumps_indent h (JList (map item_json (sort_by_name h files))),
         dumps_indent h (JList (map item_json (sort_by_name h directories))),
         path_str path), w).
Proof.
  intros Hres Hex Hd Hiter Hloop.
  pose proof (browse_loop_sound _ _ _ _ _ _ _ Hloop) as [-> _].
  unfold browse_files, browse_body, enumerate, try_except, bind, ask.
  feed Hres. feed Hex. feed Hd. feed Hiter. now feed Hloop.
Qed.

End Listing.

Section ListingClaims.
Variable h : Host.
Variables (directory_path : string) (show_hidden : bool).
Variable filter_pattern : string.
Variables (w w' : World h) (path : Path h) (items : list (Path h)).
Variables files directories : list item_info.

(** The listing succeeds: the path resolves to a directory whose children
    are [items], and the loop over them ends with the lists [files] and
    [directories]. *)
Hypothesis resolved : resolve directory_path w = Ok path.
Hypothesis present : path_exists path w = Ok true.
Hypothesis a_directory : is_dir path w = Ok true.
Hypothesis listed : iterdir path w = Ok items.
Hypothesis looped :
  browse_loop h show_hidden filter_pattern items [] [] w
  = (Ok (files, directories), w').


(** C9. On a listing that succeeds, a visited child that is neither a
    directory nor a regular file has its dictionary built (its metadata was
    read) and that dictionary is in neither output; the node still returns
    the two lists and the resolved path, not an error. *)
Theorem browse_files_omits_other_kinds :
  let files_out := sort_by_name h files in
  let directories_out := sort_by_name h directories in
  browse_files h directory_path show_hidden filter_pattern w
  = (Ok (dumps_indent h (JList (map item_json files_out)),
         dumps_indent h (JList (map item_json directories_out)),
         path_str path), w)
  /\ forall item, In item items ->
       visible h show_hidden item = true ->
       is_dir item w = Ok false ->
       is_file item w = Ok false ->
       exists info, entry_of h w item info
         /\ ~ In info files_out
         /\ ~ In info directories_out.
Proof.
  intros files_out directories_out. subst files_out directories_out.
  destruct (browse_loop_sound _ _ _ _ _ _ _ _ _ _ looped)
    as (_ & fs & ds & Hf & Hd & Hds & Hfs & Hall).
  cbn in Hf, Hd. subst fs ds.
  split; [now apply browse_files_success with (w' := w') (items := items) |].
  intros item Hin Hvis Hdir Hfile.
  destruct (Hall item Hin Hvis) as (info & Hentry & _).
  exists info. split; [exact Hentry |].
  apply make_item_info_fields in Hentry as (Hd & Hf & _).
  rewrite Hdir in Hd. rewrite Hfile in Hf.
  injection Hd as Hd. injection Hf as Hf.
  split; intros Hinfo; apply sort_by_name_in in Hinfo.
  - destruct (Hfs info Hinfo) as (item' & _ & _ & Hentry' & _ & Hf' & _).
    apply make_item_info_fields in Hentry' as (_ & Hf'' & _). congruence.
  - destruct (Hds info Hinfo) as (item' & _ & _ & Hentry' & Hd').
    apply make_item_info_fields in Hentry' as (Hd'' & _). congruence.
Qed.

End ListingClaims.

(* ================================================================= *)
(** ** The theorems at work on the sample world *)

Module Runs.

(** A missing path: the third output is the input string, which is not an
    error payload. *)
Lemma missing_path_third_channel_is_the_input :
  resolve (h:=Sim.host) "/home/nope" Sim.sample = Ok ["home"; "nope"]
  /\ path_exists (h:=Sim.host) ["home"; "nope"] Sim.sample = Ok false
  /\ browse_files Sim.host "/home/nope" false "*" Sim.sample
     = (Ok (error_payload Sim.host "Path does not exist",
            error_payload Sim.host "Path does not exist",
            "/home/nope"), Sim.sample)
  /\ ~ three_channels_carry_error Sim.host
         (error_payload Sim.host "Path does not exist",
          error_payload Sim.host "Path does not exist",
          "/home/nope").
Proof.
  repeat split; try reflexivity.
  intros [message H]. injection H as _ _ H.
  vm_compute in H. discriminate H.
Qed.

Lemma browse_failure_channels_witness :
  browse_files Sim.host "/home/nope" false "*" Sim.sample
  = (Ok (error_payload Sim.host "Path does not exist",
         error_payload Sim.host "Path does not exist",
         "/home/nope"), Sim.sample)
  /\ browse_files Sim.host "/home/proj/a.txt" false "*" Sim.sample
     = (Ok (error_payload Sim.host "Path is not a directory",
            error_payload Sim.host "Path is not a directory",
            "/home/proj/a.txt"), Sim.sample)
  /\ browse_files Sim.host "/home/secret" false "*" Sim.sample
     = (Ok (error_payload Sim.host "Permission denied",
            error_payload Sim.host "Permission denied",
            "/home/secret"), Sim.sample).
Proof.
  split; [| split].
  - apply (proj1 (browse_failure_channels Sim.host "/home/nope" false "*"
                    Sim.sample ["home"; "nope"] eq_refl)).
    reflexivity.
  - apply (proj1 (proj2 (browse_failure_channels Sim.host "/home/proj/a.txt"
                           false "*" Sim.sample ["home"; "proj"; "a.txt"]
                           eq_refl))); reflexivity.
  - apply (proj2 (proj2 (browse_failure_channels Sim.host "/home/secret"
                           false "*" Sim.sample ["home"; "secret"] eq_refl))
             (Sim.errno PermissionError "13" "Permission denied"
                        ["home"; "secret"]));
      reflexivity.
Defined.

Lemma timeout_gives_empty_output_and_minus_one_witness :
  subprocess_run Sim.host "sleep 5" (Some "/home") true 1 Sim.sample
  = (Raise (Exn TimeoutExpired "Command 'sleep 5' timed out after 1 seconds"
                (Some "partial") (Some EmptyString)), Sim.sample)
  /\ execute_command Sim.host "sleep 5" (Some "/home") 1 true Sim.sample
     = (Ok (EmptyString, "Error: Command timed out after 1 seconds", -1),
        Sim.sample).
Proof.
  split; [reflexivity |].
  apply (timeout_gives_empty_output_and_minus_one
           Sim.host "sleep 5" (Some "/home") 1 true
           Sim.sample Sim.sample Sim.sample (Some ["home"]) eq_refl
           (Exn TimeoutExpired "Command 'sleep 5' timed out after 1 seconds"
                (Some "partial") (Some EmptyString)));
    reflexivity.
Defined.

Lemma completed_run_passes_return_code_witness :
  execute_command Sim.host "exit 7" (Some "/home") 30 true Sim.sample
  = (Ok (EmptyString, EmptyString, 7), Sim.sample).
Proof.
  apply (completed_run_passes_return_code
           Sim.host "exit 7" (Some "/home") 30 true
           Sim.sample Sim.sample Sim.sample (Some ["home"]) eq_refl
           (Completed (Some EmptyString) (Some EmptyString) 7));
    reflexivity.
Defined.

(** A shell killed by signal 1 is reported by [subprocess.run] with return
    code [-1]: a completed run whose exit-code slot is [-1]. *)
Lemma completed_run_can_return_minus_one :
  subprocess_run Sim.host "kill -HUP $$" None true 30 Sim.sample
  = (Ok (Completed (Some EmptyString) (Some EmptyString) (-1)),
     Sim.sample)
  /\ execute_command Sim.host "kill -HUP $$" None 30 true Sim.sample
     = (Ok (EmptyString, EmptyString, -1), Sim.sample)
  /\ ~ minus_one_reserved Sim.host.
Proof.
  repeat split; try reflexivity.
  intros Hreserved.
  apply (Hreserved "kill -HUP $$" None 30 true Sim.sample None Sim.sample
                   (Completed (Some EmptyString) (Some EmptyString)
                              (-1))
                   Sim.sample (EmptyString, EmptyString, -1) Sim.sample);
    reflexivity.
Qed.

Lemma uncaptured_run_returns_empty_streams_witness :
  spawn (h:=Sim.host) "echo hi" (Some "/home") 30 Sim.sample
  = (Ok (Child ("hi" ++ newline) EmptyString 0), Sim.sample)
  /\ execute_command Sim.host "echo hi" (Some "/home") 30 false Sim.sample
     = (Ok (EmptyString, EmptyString, 0), Sim.sample).
Proof.
  split; [reflexivity |].
  apply (uncaptured_run_returns_empty_streams
           Sim.host "echo hi" (Some "/home") 30
           Sim.sample Sim.sample Sim.sample (Some ["home"])
           (Child ("hi" ++ newline) EmptyString 0));
    reflexivity.
Defined.

Lemma read_file_size_ceiling_witness :
  stat (h:=Sim.host) ["home"; "big.bin"] Sim.sample
  = Ok (Stat 2097152 Sim.epoch)
  /\ read_file Sim.host "/home/big.bin" "utf-8" 1 Sim.sample
     = (Ok ("Error: File too large (2.00 MB > 1 MB)",
            dumps Sim.host (JDict [("error", JStr "File too large");
                                   ("size", JInt 2097152)])),
        Sim.sample)
  /\ read_file Sim.host "/home/big.bin" "utf-8" 2 Sim.sample
     = try_except
         (read_and_describe Sim.host ["home"; "big.bin"] "utf-8" 2097152)
         [(Exception, status_error Sim.host)] Sim.sample.
Proof.
  split; [reflexivity |]. split.
  - apply (proj1 (read_file_size_ceiling
                    Sim.host "/home/big.bin" "utf-8" 1 Sim.sample
                    ["home"; "big.bin"] (Stat 2097152 Sim.epoch)
                    eq_refl eq_refl eq_refl eq_refl)).
    reflexivity.
  - apply (proj2 (read_file_size_ceiling
                    Sim.host "/home/big.bin" "utf-8" 2 Sim.sample
                    ["home"; "big.bin"] (Stat 2097152 Sim.epoch)
                    eq_refl eq_refl eq_refl eq_refl)).
    discriminate.
Defined.

Lemma create_directory_existing_witness :
  (create_directory Sim.host "/home/proj" true Sim.sample
   = (Ok ("Directory already exists: /home/proj",
          dumps Sim.host (JDict [("path", JStr "/home/proj");
                                 ("exists", JBool true)])),
      Sim.sample)
   /\ (create_directory Sim.host "/home/proj" true ;;;
       create_directory Sim.host "/home/proj" true) Sim.sample
      = create_directory Sim.host "/home/proj" true Sim.sample)
  /\ create_directory Sim.host "/home/proj/a.txt" true Sim.sample
     = (Ok ("Error: Path exists but is not a directory",
            error_payload Sim.host "Path is not a directory"),
        Sim.sample).
Proof.
  split.
  - apply (proj1 (create_directory_existing
                    Sim.host "/home/proj" true Sim.sample Sim.proj
                    eq_refl eq_refl)).
    reflexivity.
  - apply (proj2 (create_directory_existing
                    Sim.host "/home/proj/a.txt" true Sim.sample
                    ["home"; "proj"; "a.txt"] eq_refl eq_refl)).
    reflexivity.
Defined.


Lemma browse_files_omits_other_kinds_witness :
  is_dir (h:=Sim.host) ["home"; "proj"; "pipe"] Sim.sample = Ok false
  /\ is_file (h:=Sim.host) ["home"; "proj"; "pipe"] Sim.sample = Ok false
  /\ exists info,
      entry_of Sim.host Sim.sample ["home"; "proj"; "pipe"] info
      /\ ~ In info (sort_by_name Sim.host
                      [Sim.entry "b.py" 9 false true; Sim.entry "a.txt" 5 false true;
                       Sim.entry "Zed.txt" 0 false true])
      /\ ~ In info (sort_by_name Sim.host [Sim.entry "Sub" 0 true false]).
Proof.
  split; [reflexivity |]. split; [reflexivity |].
  apply (proj2 (browse_files_omits_other_kinds
                  Sim.host "/home/proj" false "*" Sim.sample Sim.sample
                  Sim.proj Sim.children
                  [Sim.entry "b.py" 9 false true; Sim.entry "a.txt" 5 false true;
                   Sim.entry "Zed.txt" 0 false true]
                  [Sim.entry "Sub" 0 true false]
                  eq_refl eq_refl eq_refl eq_refl eq_refl)
               ["home"; "proj"; "pipe"]);
    [cbn; tauto | reflexivity | reflexivity | reflexivity].
Defined.

Lemma str_of_Z_samples :
  (str_of_Z 0, str_of_Z 30, str_of_Z (-1)) = ("0", "30", "-1").
Proof. reflexivity. Qed.


(** A path with a null character cannot be resolved, and a path that is
    not there cannot be deleted; without confirmation neither matters. *)
Lemma delete_unconfirmed_touches_nothing_witness :
  resolve (h:=Sim.host) (String (ascii_of_nat 0) "x") Sim.sample
  = Raise (Sim.no_detail ValueError "embedded null byte")
  /\ delete_file Sim.host (String (ascii_of_nat 0) "x") false Sim.sample
     = (Ok "Error: confirm_delete must be True to delete files", Sim.sample)
  /\ delete_file Sim.host "/home/nope" false Sim.sample
     = (Ok "Error: confirm_delete must be True to delete files", Sim.sample).
Proof.
  split; [reflexivity |]. split.
  - apply (delete_unconfirmed_touches_nothing Sim.host).
  - apply (delete_unconfirmed_touches_nothing Sim.host).
Defined.

End Runs.

(* ================================================================= *)
(** ** write_file *)

Section Write.
Variable h : Host.
Variables (file_path content encoding : string) (overwrite : bool).
Variables (w : World h) (path : Path h).

Hypothesis resolved : resolve file_path w = Ok path.

(** X1. An existing target is not written without [overwrite]: the node
    returns the file-exists error with the resolved path in it, and the
    world is unchanged. *)
Theorem write_file_refuses_existing :
  overwrite = false ->
  path_exists path w = Ok true ->
  write_file h file_path content encoding overwrite w
  = (Ok ("Error: File exists and overwrite is False",
         dumps h (JDict [("error", JStr "File exists");
                         ("path", JStr (path_str path))])),
     w).
Proof.
  intros -> Hex. unfold write_file, write_body, try_except, bind, ask.
  feed resolved. now feed Hex.
Qed.

(** X2. A target that is missing, or may be overwritten, is written after
    its parent directories are made (with [parents] and [exist_ok]); the
    status counts the characters of the content and names the file, and the
    size and time in the payload are those of the file after the write. *)
Theorem write_file_writes (ex : bool) (w1 w2 : World h) (st : stat_result) :
  path_exists path w = Ok ex ->
  ex && negb overwrite = false ->
  mkdir (path_parent path) true true w = (Ok tt, w1) ->
  write_text path encoding content w1 = (Ok tt, w2) ->
  stat path w2 = Ok st ->
  write_file h file_path content encoding overwrite w
  = (Ok ("Successfully wrote "
           ++ str_of_Z (Z.of_nat (String.length content))
           ++ " characters to " ++ path_name path,
         dumps_indent h (JDict [("name", JStr (path_name path));
                                ("path", JStr (path_str path));
                                ("size", JInt (st_size st));
                                ("modified", JFloat (st_mtime st));
                                ("encoding", JStr encoding)])),
     w2).
Proof.
  intros Hex Hguard Hmk Hwr Hst.
  unfold write_file, write_body, try_except, bind, ask.
  feed resolved. feed Hex. feed Hguard. feed Hmk. feed Hwr. now feed Hst.
Qed.

(** X3. The write is not undone when it fails: if making the parents
    succeeds and writing raises, the node returns the error built from the
    exception and the world is the one the failed write left, with the new
    parent directories and whatever the write did to the file. *)
Theorem write_file_failure_is_not_rolled_back (ex : bool) (w1 w2 : World h)
        (e : exn) :
  path_exists path w = Ok ex ->
  ex && negb overwrite = false ->
  mkdir (path_parent path) true true w = (Ok tt, w1) ->
  write_text path encoding content w1 = (Raise e, w2) ->
  write_file h file_path content encoding overwrite w
  = (Ok ("Error: " ++ exn_str e, error_payload h (exn_str e)), w2).
Proof.
  intros Hex Hguard Hmk Hwr.
  unfold write_file, write_body, try_except, bind, ask.
  feed resolved. feed Hex. feed Hguard. feed Hmk. feed Hwr.
  cbn [dispatch]. now rewrite isinstance_Exception.
Qed.

(** X4. Write then read: when the host gives back what was written (the
    path resolves, exists as a regular file within the ceiling and reads as
    [content] in the world after the write), [write_file] followed by
    [read_file] with a text encoding returns the content written and the
    size of the written file. *)
Theorem write_then_read_round_trip (ex : bool) (w1 w2 : World h)
        (st : stat_result) (max_size_mb : Z) :
  path_exists path w = Ok ex ->
  ex && negb overwrite = false ->
  mkdir (path_parent path) true true w = (Ok tt, w1) ->
  write_text path encoding content w1 = (Ok tt, w2) ->
  stat path w2 = Ok st ->
  resolve file_path w2 = Ok path ->
  path_exists path w2 = Ok true ->
  is_file path w2 = Ok true ->
  st_size st <= max_size_mb * 1024 * 1024 ->
  (encoding =? "binary")%string = false ->
  read_text path encoding w2 = Ok content ->
  (write_file h file_path content encoding overwrite ;;;
   read_file h file_path encoding max_size_mb) w
  = (Ok (content,
         dumps_indent h (JDict [("name", JStr (path_name path));
                                ("path", JStr (path_str path));
                                ("size", JInt (st_size st));
                                ("modified", JFloat (st_mtime st));
                                ("encoding", JStr encoding)])),
     w2).
Proof.
  intros Hex Hguard Hmk Hwr Hst Hres2 Hex2 Hfile2 Hsize Henc Hread.
  unfold bind at 1.
  assert (Hwrite : write_file h file_path content encoding overwrite w
                   = (Ok ("Successfully wrote "
                            ++ str_of_Z (Z.of_nat (String.length content))
                            ++ " characters to " ++ path_name path,
                          dumps_indent h
                            (JDict [("name", JStr (path_name path));
                                    ("path", JStr (path_str path));
                                    ("size", JInt (st_size st));
                                    ("modified", JFloat (st_mtime st));
                                    ("encoding", JStr encoding)])),
                      w2)).
  { unfold write_file, write_body, try_except, bind, ask.
    feed resolved. feed Hex. feed Hguard. feed Hmk. feed Hwr. now feed Hst. }
  rewrite Hwrite. cbv beta iota.
  unfold read_file, read_body, read_and_describe, read_content,
    try_except, bind, ask.
  feed Hres2. feed Hex2. feed Hfile2. feed Hst. cbv zeta.
  replace (st_size st >? max_size_mb * 1024 * 1024) with false
    by (symmetry; rewrite Z.gtb_ltb; apply Z.ltb_ge; lia).
  rewrite Henc. unfold ask. feed Hread. now feed Hst.
Qed.

End Write.

(* ================================================================= *)
(** ** copy_file *)

Section Copy.
Variable h : Host.
Variables (source_path destination_path : string) (overwrite : bool).
Variables (w : World h) (src dst : Path h).

Hypothesis source_resolved : resolve source_path w = Ok src.

(** X5. Both paths are resolved before anything is looked at: a
    destination that cannot be resolved makes the copy fail with that
    exception, whether or not the source exists, and the world is
    unchanged. *)
Theorem copy_file_resolves_destination_first (e : exn) :
  resolve destination_path w = Raise e ->
  copy_file h source_path destination_path overwrite w
  = (Ok ("Error: " ++ exn_str e, error_payload h (exn_str e)), w).
Proof.
  intros Hdst. unfold copy_file, copy_body, try_except, bind, ask.
  feed source_resolved. feed Hdst. cbn [dispatch].
  now rewrite isinstance_Exception.
Qed.

Hypothesis destination_resolved : resolve destination_path w = Ok dst.

(** X6. The three guards of the copy, in order: a missing source, a
    source that is not a regular file, and an existing destination without
    [overwrite] each return their own error and leave the world
    unchanged. *)
Theorem copy_file_guards :
  (path_exists src w = Ok false ->
   copy_file h source_path destination_path overwrite w
   = (Ok ("Error: Source file does not exist",
          error_payload h "Source does not exist"), w))
  /\ (path_exists src w = Ok true ->
      is_file src w = Ok false ->
      copy_file h source_path destination_path overwrite w
      = (Ok ("Error: Source is not a file",
             error_payload h "Source is not a file"), w))
  /\ (path_exists src w = Ok true ->
      is_file src w = Ok true ->
      path_exists dst w = Ok true ->
      overwrite = false ->
      copy_file h source_path destination_path overwrite w
      = (Ok ("Error: Destination exists and overwrite is False",
             error_payload h "Destination exists"), w)).
Proof.
  unfold copy_file, copy_body, try_except, bind, ask.
  repeat split.
  - intros Hex. feed source_resolved. feed destination_resolved.
    now feed Hex.
  - intros Hex Hfile. feed source_resolved. feed destination_resolved.
    feed Hex. now feed Hfile.
  - intros Hex Hfile Hdex ->. feed source_resolved.
    feed destination_resolved. feed Hex. feed Hfile. now feed Hdex.
Qed.

(** X7. A regular file is copied after the parents of the destination are
    made; the status names the source file and the destination path, and
    the size and time in the payload are those of the destination after
    the copy. *)
Theorem copy_file_copies (dex : bool) (w1 w2 : World h) (st : stat_result) :
  path_exists src w = Ok true ->
  is_file src w = Ok true ->
  path_exists dst w = Ok dex ->
  dex && negb overwrite = false ->
  mkdir (path_parent dst) true true w = (Ok tt, w1) ->
  copy2 src dst w1 = (Ok tt, w2) ->
  stat dst w2 = Ok st ->
  copy_file h source_path destination_path overwrite w
  = (Ok ("Successfully copied " ++ path_name src ++ " to " ++ path_str dst,
         dumps_indent h (JDict [("source", JStr (path_str src));
                                ("destination", JStr (path_str dst));
                                ("size", JInt (st_size st));
                                ("modified", JFloat (st_mtime st))])),
     w2).
Proof.
  intros Hex Hfile Hdex Hguard Hmk Hcp Hst.
  unfold copy_file, copy_body, try_except, bind, ask.
  feed source_resolved. feed destination_resolved. feed Hex. feed Hfile.
  feed Hdex. feed Hguard. feed Hmk. feed Hcp. now feed Hst.
Qed.

End Copy.

(* ================================================================= *)
(** ** delete_file *)

(** X8. The only thing [delete_file] ever does to the world is to unlink
    an existing regular file after confirmation: in every other case, on
    every host, the world it leaves is the world it was given. *)
Theorem delete_file_only_unlinks_regular_files (h : Host)
        (file_path : string) (confirm_delete : bool) (w : World h) :
  snd (delete_file h file_path confirm_delete w) = w
  \/ (confirm_delete = true
      /\ exists path,
          resolve file_path w = Ok path
          /\ path_exists path w = Ok true
          /\ is_file path w = Ok true
          /\ snd (delete_file h file_path confirm_delete w)
             = snd (unlink path w)).
Proof.
  destruct confirm_delete; [| now left].
  unfold delete_file, delete_body, try_except, bind, ask. cbn [negb].
  destruct (resolve file_path w) as [path | e] eqn:Hres; cbv beta iota.
  2: { left. cbn [dispatch]. now rewrite isinstance_Exception. }
  destruct (path_exists path w) as [[|] | e] eqn:Hex; cbv beta iota;
    cbn [negb].
  2: now left.
  2: { left. cbn [dispatch]. now rewrite isinstance_Exception. }
  destruct (is_file path w) as [[|] | e] eqn:Hfile; cbv beta iota;
    cbn [negb].
  2: now left.
  2: { left. cbn [dispatch]. now rewrite isinstance_Exception. }
  right. split; [reflexivity |]. exists path. repeat split; auto.
  destruct (unlink path w) as [[[] | e] w1]; cbv beta iota; cbn [snd].
  - reflexivity.
  - cbn [dispatch]. now rewrite isinstance_Exception.
Qed.

(** X9. A confirmed delete of a path that resolves: a missing path and a
    path that is not a regular file (a directory, say) each return their
    own error naming the resolved path and change nothing; a regular file
    is unlinked and reported deleted. *)
Theorem delete_file_confirmed (h : Host) (file_path : string)
        (w : World h) (path : Path h) :
  resolve file_path w = Ok path ->
  (path_exists path w = Ok false ->
   delete_file h file_path true w
   = (Ok ("Error: File does not exist: " ++ path_str path), w))
  /\ (path_exists path w = Ok true ->
      is_file path w = Ok false ->
      delete_file h file_path true w
      = (Ok ("Error: Path is not a file: " ++ path_str path), w))
  /\ (forall w1,
         path_exists path w = Ok true ->
         is_file path w = Ok true ->
         unlink path w = (Ok tt, w1) ->
         delete_file h file_path true w
         = (Ok ("Successfully deleted: " ++ path_str path), w1)).
Proof.
  intros Hres. unfold delete_file, delete_body, try_except, bind, ask.
  cbn [negb]. repeat split.
  - intros Hex. feed Hres. now feed Hex.
  - intros Hex Hfile. feed Hres. feed Hex. now feed Hfile.
  - intros w1 Hex Hfile Hun. feed Hres. feed Hex. feed Hfile. now feed Hun.
Qed.

(* ================================================================= *)
(** ** create_directory on a new path *)

(** X10. On a path that does not exist the directory is made with
    [parents] as asked and [exist_ok] set; the node reports it created,
    with the time of the new directory, or, if making it raises (a missing
    parent without [create_parents], say), returns that error. *)
Theorem create_directory_fresh (h : Host) (directory_path : string)
        (create_parents : bool) (w : World h) (path : Path h) :
  resolve directory_path w = Ok path ->
  path_exists path w = Ok false ->
  (forall w1 st,
      mkdir path create_parents true w = (Ok tt, w1) ->
      stat path w1 = Ok st ->
      create_directory h directory_path create_parents w
      = (Ok ("Successfully created directory: " ++ path_str path,
             dumps_indent h (JDict [("path", JStr (path_str path));
                                    ("created", JBool true);
                                    ("modified", JFloat (st_mtime st))])),
         w1))
  /\ (forall e w1,
         mkdir path create_parents true w = (Raise e, w1) ->
         create_directory h directory_path create_parents w
         = (Ok ("Error: " ++ exn_str e, error_payload h (exn_str e)), w1)).
Proof.
  intros Hres Hex.
  unfold create_directory, create_body, try_except, bind, ask.
  split.
  - intros w1 st Hmk Hst. feed Hres. feed Hex. feed Hmk. now feed Hst.
  - intros e w1 Hmk. feed Hres. feed Hex. feed Hmk.
    cbn [dispatch]. now rewrite isinstance_Exception.
Qed.

(** X11. Creating twice: when the directory made by the first call is
    there for the second (the path resolves as before and now exists as a
    directory), the second call reports that it already exists and the
    world after both calls is the world after the first. *)
Theorem create_directory_twice (h : Host) (directory_path : string)
        (create_parents : bool) (w w1 : World h) (path : Path h)
        (st : stat_result) :
  resolve directory_path w = Ok path ->
  path_exists path w = Ok false ->
  mkdir path create_parents true w = (Ok tt, w1) ->
  stat path w1 = Ok st ->
  resolve directory_path w1 = Ok path ->
  path_exists path w1 = Ok true ->
  is_dir path w1 = Ok true ->
  (create_directory h directory_path create_parents ;;;
   create_directory h directory_path create_parents) w
  = (Ok ("Directory already exists: " ++ path_str path,
         dumps h (JDict [("path", JStr (path_str path));
                         ("exists", JBool true)])),
     w1).
Proof.
  intros Hres Hex Hmk Hst Hres1 Hex1 Hdir1.
  unfold bind at 1.
  assert (Hfirst : create_directory h directory_path create_parents w
                   = (Ok ("Successfully created directory: "
                            ++ path_str path,
                          dumps_indent h
                            (JDict [("path", JStr (path_str path));
                                    ("created", JBool true);
                                    ("modified", JFloat (st_mtime st))])),
                      w1)).
  { unfold create_directory, create_body, try_except, bind, ask.
    feed Hres. feed Hex. feed Hmk. now feed Hst. }
  rewrite Hfirst. cbv beta iota.
  unfold create_directory, create_body, try_except, bind, ask.
  feed Hres1. feed Hex1. now feed Hdir1.
Qed.

(* ================================================================= *)
(** ** execute_command: the working directory and the captured streams *)

Lemma or_empty_some (s : string) : or_empty (Some s) = s.
Proof. now destruct s. Qed.

(** X12. A working directory that resolves to something missing, or to
    something that is not a directory, stops the node before any child is
    started: it returns an empty output, the message naming the resolved
    directory, and [-1], and the world is unchanged. *)
Theorem execute_command_rejects_bad_directory (h : Host)
        (command working_directory : string) (timeout_seconds : Z)
        (capture_output : bool) (w : World h) (cwd : Path h) :
  truthy working_directory = true ->
  resolve working_directory w = Ok cwd ->
  path_exists cwd w = Ok false
  \/ (path_exists cwd w = Ok true /\ is_dir cwd w = Ok false) ->
  execute_command h command (Some working_directory) timeout_seconds
                  capture_output w
  = (Ok (EmptyString,
         "Error: Working directory does not exist: " ++ path_str cwd,
         -1), w).
Proof.
  intros Htruthy Hres Hbad.
  unfold execute_command, execute_body, check_working_directory,
    try_except, bind, ask, ret.
  rewrite Htruthy. feed Hres.
  destruct Hbad as [Hex | [Hex Hdir]].
  - now feed Hex.
  - feed Hex. now feed Hdir.
Qed.

(** X13. With no working directory, or an empty one, nothing is resolved:
    on every host the child is started without a directory in the world
    the node was called in, and with [capture_output] a child that
    completes has its two streams and its exit code returned as they
    are. *)
Theorem execute_command_without_directory (h : Host) (command : string)
        (working_directory : option string) (timeout_seconds : Z)
        (w w1 : World h) (report : child_report) :
  working_directory = None \/ working_directory = Some EmptyString ->
  spawn command None timeout_seconds w = (Ok report, w1) ->
  execute_command h command working_directory timeout_seconds true w
  = (Ok (child_stdout report, child_stderr report, child_exit report), w1).
Proof.
  intros Hwd Hspawn.
  assert (Hcheck : check_working_directory h working_directory w
                   = (Ok (inr None), w))
    by (destruct Hwd as [-> | ->]; reflexivity).
  rewrite (execute_command_after_check h _ _ _ _ _ _ _ Hcheck).
  unfold try_except, run_command, subprocess_run, bind. cbn [option_map].
  feed Hspawn. unfold ret. cbn [cp_stdout cp_stderr cp_returncode].
  now rewrite !or_empty_some.
Qed.

(** X14. With [capture_output], a child that completes in an accepted
    working directory has exactly what it printed returned, empty streams
    included, with its exit code. *)
Theorem captured_run_returns_child_output (h : Host) (command : string)
        (working_directory : option string) (timeout_seconds : Z)
        (w w1 w2 : World h) (cwd : option (Path h)) (report : child_report) :
  check_working_directory h working_directory w = (Ok (inr cwd), w1) ->
  spawn command (option_map path_str cwd) timeout_seconds w1
  = (Ok report, w2) ->
  execute_command h command working_directory timeout_seconds true w
  = (Ok (child_stdout report, child_stderr report, child_exit report), w2).
Proof.
  intros Hcheck Hspawn.
  rewrite (execute_command_after_check h _ _ _ _ _ _ _ Hcheck).
  unfold try_except, run_command, subprocess_run, bind.
  feed Hspawn. unfold ret. cbn [cp_stdout cp_stderr cp_returncode].
  now rewrite !or_empty_some.
Qed.

(** X15. A child that cannot be started or fails otherwise than by
    timing out (the host raises an exception that is not a
    [TimeoutExpired]) gives an empty output, the text of the exception
    after the error prefix, and [-1]. *)
Theorem failed_launch_gives_minus_one (h : Host) (command : string)
        (working_directory : option string) (timeout_seconds : Z)
        (capture_output : bool) (w w1 w2 : World h) (cwd : option (Path h))
        (e : exn) :
  check_working_directory h working_directory w = (Ok (inr cwd), w1) ->
  spawn command (option_map path_str cwd) timeout_seconds w1
  = (Raise e, w2) ->
  isinstance e TimeoutExpired = false ->
  execute_command h command working_directory timeout_seconds
                  capture_output w
  = (Ok (EmptyString, "Error: " ++ exn_str e, -1), w2).
Proof.
  intros Hcheck Hspawn Hcls.
  rewrite (execute_command_after_check h _ _ _ _ _ _ _ Hcheck).
  unfold try_except, run_command, subprocess_run, bind.
  feed Hspawn. cbn [dispatch]. rewrite Hcls.
  now rewrite isinstance_Exception.
Qed.

(* ================================================================= *)
(** ** read_file: the guards and the two ways of reading *)

(** X16. Reading a path that does not exist, or that is not a regular
    file (a directory, say), returns the matching error in both outputs
    without looking at sizes or content. *)
Theorem read_file_guards (h : Host) (file_path encoding : string)
        (max_size_mb : Z) (w : World h) (path : Path h) :
  resolve file_path w = Ok path ->
  (path_exists path w = Ok false ->
   read_file h file_path encoding max_size_mb w
   = (Ok ("Error: File does not exist",
          error_payload h "File does not exist"), w))
  /\ (path_exists path w = Ok true ->
      is_file path w = Ok false ->
      read_file h file_path encoding max_size_mb w
      = (Ok ("Error: Path is not a file",
             error_payload h "Path is not a file"), w)).
Proof.
  intros Hres. unfold read_file, read_body, try_except, bind, ask.
  split.
  - intros Hex. feed Hres. now feed Hex.
  - intros Hex Hfile. feed Hres. feed Hex. now feed Hfile.
Qed.

(** X17. A regular file within the ceiling is returned as its decoded
    text under a text encoding, and under [binary] as the marker line
    followed by the base64 of its bytes; either way the payload gives the
    name, the resolved path, the size and time from [stat] and the
    encoding asked for. *)
Theorem read_file_reads (h : Host) (file_path encoding : string)
        (max_size_mb : Z) (w : World h) (path : Path h) (st : stat_result) :
  resolve file_path w = Ok path ->
  path_exists path w = Ok true ->
  is_file path w = Ok true ->
  stat path w = Ok st ->
  st_size st <= max_size_mb * 1024 * 1024 ->
  let file_info :=
    dumps_indent h (JDict [("name", JStr (path_name path));
                           ("path", JStr (path_str path));
                           ("size", JInt (st_size st));
                           ("modified", JFloat (st_mtime st));
                           ("encoding", JStr encoding)]) in
  (forall text,
      encoding <> "binary" ->
      read_text path encoding w = Ok text ->
      read_file h file_path encoding max_size_mb w
      = (Ok (text, file_info), w))
  /\ (forall bytes,
         encoding = "binary" ->
         read_bytes path w = Ok bytes ->
         read_file h file_path encoding max_size_mb w
         = (Ok ("[Binary file - Base64 encoded]" ++ newline
                  ++ b64encode (h:=h) bytes, file_info), w)).
Proof.
  intros Hres Hex Hfile Hstat Hsize file_info. subst file_info.
  assert (Hfits : (st_size st >? max_size_mb * 1024 * 1024) = false)
    by (rewrite Z.gtb_ltb; apply Z.ltb_ge; lia).
  unfold read_file, read_body, read_and_describe, read_content,
    try_except, bind, ask.
  repeat split.
  - intros text Henc Hread. apply String.eqb_neq in Henc.
    feed Hres. feed Hex. feed Hfile. feed Hstat. cbv zeta.
    rewrite Hfits, Henc. unfold ask. feed Hread. now feed Hstat.
  - intros bytes -> Hread.
    feed Hres. feed Hex. feed Hfile. feed Hstat. cbv zeta.
    rewrite Hfits. cbn [String.eqb Ascii.eqb Bool.eqb]. cbv beta iota.
    unfold bind, ask, ret. feed Hread. now feed Hstat.
Qed.

(* ================================================================= *)
(** ** browse_files: failures other than the three guards *)

(** X18. A failure while resolving the path or testing that it exists
    (before the directory is listed) is reported with the text of the exception in the
    first two outputs and the path as given in the third; this includes a
    [PermissionError] raised there, which is not turned into the
    permission-denied payload. *)
Theorem browse_files_probe_failure (h : Host) (directory_path : string)
        (show_hidden : bool) (filter_pattern : string) (w : World h)
        (e : exn) :
  let failed :=
    (Ok (error_payload h (exn_str e), error_payload h (exn_str e),
         directory_path), w) in
  (resolve directory_path w = Raise e ->
   browse_files h directory_path show_hidden filter_pattern w = failed)
  /\ (forall path,
         resolve directory_path w = Ok path ->
         path_exists path w = Raise e ->
         browse_files h directory_path show_hidden filter_pattern w = failed).
Proof.
  intros failed. subst failed.
  unfold browse_files, browse_body, try_except, bind, ask.
  repeat split.
  - intros Hres. feed Hres. cbn [dispatch].
    now rewrite isinstance_Exception.
  - intros path Hres Hex. feed Hres. feed Hex. cbn [dispatch].
    now rewrite isinstance_Exception.
Qed.

(** X19. One failing child fails the whole listing: when listing or
    inspecting the children raises an exception that is not a
    [PermissionError] (a child that vanished, an empty filter pattern), no
    partial lists are returned; the first two outputs carry the text of the
    exception and the third the path as given. *)
Theorem browse_files_enumeration_failure (h : Host) (directory_path : string)
        (show_hidden : bool) (filter_pattern : string) (w w' : World h)
        (path : Path h) (e : exn) :
  resolve directory_path w = Ok path ->
  path_exists path w = Ok true ->
  is_dir path w = Ok true ->
  enumerate h path show_hidden filter_pattern w = (Raise e, w') ->
  isinstance e PermissionError = false ->
  browse_files h directory_path show_hidden filter_pattern w
  = (Ok (error_payload h (exn_str e), error_payload h (exn_str e),
         directory_path), w').
Proof.
  intros Hres Hex Hdir Henum Hcls.
  unfold browse_files, browse_body, try_except, bind, ask.
  feed Hres. feed Hex. feed Hdir. feed Henum. cbn [dispatch].
  rewrite Hcls. unfold raise. cbv beta iota. cbn [dispatch].
  now rewrite isinstance_Exception.
Qed.

(* ================================================================= *)
(** ** browse_files and read_file only look *)

Section Observers.
Variable h : Host.

Lemma browse_loop_world (show_hidden : bool) (filter_pattern : string)
      (items : list (Path h)) :
  forall (files directories : list item_info) (w : World h),
    snd (browse_loop h show_hidden filter_pattern items files directories w)
    = w.
Proof.
  induction items as [| item rest IH]; intros files directories w;
    [reflexivity |].
  cbn [browse_loop].
  destruct (negb show_hidden && startswith (path_name item) "."); [apply IH |].
  unfold bind at 1.
  pose proof (make_item_info_world h item w) as Hw.
  destruct (make_item_info h item w) as [[info | e] w0];
    cbn in Hw; subst w0; [| reflexivity].
  unfold bind at 1, ask at 1.
  destruct (is_dir item w) as [[|] | e]; [apply IH | | reflexivity].
  unfold bind at 1, ask at 1.
  destruct (is_file item w) as [[|] | e]; [| apply IH | reflexivity].
  unfold bind at 1, passes_filter, ret at 1, lift.
  destruct (filter_pattern =? "*")%string; [apply IH |].
  destruct (path_match item filter_pattern) as [[|] | e];
    [apply IH | apply IH | reflexivity].
Qed.

(** X20. [browse_files] and [read_file] never change the world, on any
    host and whatever they return: they only resolve, probe, list and
    read. *)
Theorem observers_leave_the_world (directory_path : string)
        (show_hidden : bool) (filter_pattern file_path encoding : string)
        (max_size_mb : Z) (w : World h) :
  snd (browse_files h directory_path show_hidden filter_pattern w) = w
  /\ snd (read_file h file_path encoding max_size_mb w) = w.
Proof.
  split.
  - unfold browse_files, browse_body, try_except at 1, bind, ask.
    destruct (resolve directory_path w) as [path | e]; cbv beta iota.
    2: { cbn [dispatch]. now rewrite isinstance_Exception. }
    destruct (path_exists path w) as [[|] | e]; cbv beta iota; cbn [negb].
    2: reflexivity.
    2: { cbn [dispatch]. now rewrite isinstance_Exception. }
    destruct (is_dir path w) as [[|] | e]; cbv beta iota; cbn [negb].
    2: reflexivity.
    2: { cbn [dispatch]. now rewrite isinstance_Exception. }
    unfold try_except, enumerate, bind, ask.
    destruct (iterdir path w) as [items | e]; cbv beta iota.
    + pose proof (browse_loop_world show_hidden filter_pattern items [] [] w)
        as Hw.
      destruct (browse_loop h show_hidden filter_pattern items [] [] w)
        as [[lists | e] w0]; cbn in Hw; subst w0; [reflexivity |].
      cbn [dispatch]. destruct (isinstance e PermissionError);
        [reflexivity |].
      unfold raise. cbv beta iota. cbn [dispatch].
      now rewrite isinstance_Exception.
    + cbn [dispatch]. destruct (isinstance e PermissionError);
        [reflexivity |].
      unfold raise. cbv beta iota. cbn [dispatch].
      now rewrite isinstance_Exception.
  - unfold read_file, read_body, read_and_describe, read_content,
      try_except, bind, ask.
    destruct (resolve file_path w) as [path | e]; cbv beta iota.
    2: { cbn [dispatch]. now rewrite isinstance_Exception. }
    destruct (path_exists path w) as [[|] | e]; cbv beta iota; cbn [negb].
    2: reflexivity.
    2: { cbn [dispatch]. now rewrite isinstance_Exception. }
    destruct (is_file path w) as [[|] | e]; cbv beta iota; cbn [negb].
    2: reflexivity.
    2: { cbn [dispatch]. now rewrite isinstance_Exception. }
    destruct (stat path w) as [st | e] eqn:Hstat; cbv beta iota zeta.
    2: { cbn [dispatch]. now rewrite isinstance_Exception. }
    destruct (st_size st >? max_size_mb * 1024 * 1024); [reflexivity |].
    destruct (encoding =? "binary")%string; unfold bind, ask, ret.
    + destruct (read_bytes path w) as [bytes | e]; cbv beta iota;
        [now feed Hstat |].
      cbn [dispatch]. now rewrite isinstance_Exception.
    + destruct (read_text path encoding w) as [text | e]; cbv beta iota;
        [now feed Hstat |].
      cbn [dispatch]. now rewrite isinstance_Exception.
Qed.

(** X21. Hidden children are skipped before anything is asked about
    them: the loop runs exactly as it would on the visible children alone,
    so a hidden child that cannot be inspected does not fail a listing
    that leaves hidden entries out. *)
Theorem hidden_children_are_not_inspected (show_hidden : bool)
        (filter_pattern : string) (items : list (Path h)) :
  forall (files directories : list item_info) (w : World h),
    browse_loop h show_hidden filter_pattern items files directories w
    = browse_loop h show_hidden filter_pattern
                  (filter (visible h show_hidden) items) files directories w.
Proof.
  induction items as [| item rest IH]; intros files directories w;
    [reflexivity |].
  cbn [browse_loop filter]. unfold visible at 1.
  destruct (negb show_hidden && startswith (path_name item) ".") eqn:Hhid;
    cbn [negb]; [apply IH |].
  cbn [browse_loop]. rewrite Hhid.
  unfold bind, ask, passes_filter, lift, ret.
  pose proof (make_item_info_world h item w) as Hw.
  destruct (make_item_info h item w) as [[info | e] w0];
    cbn in Hw; subst w0; [| reflexivity].
  destruct (is_dir item w) as [[|] | e]; [apply IH | | reflexivity].
  destruct (is_file item w) as [[|] | e]; [| apply IH | reflexivity].
  destruct (filter_pattern =? "*")%string; [apply IH |].
  destruct (path_match item filter_pattern) as [[|] | e];
    [apply IH | apply IH | reflexivity].
Qed.

End Observers.

(* ================================================================= *)
(** ** browse_files: what an entry says *)

Lemma make_item_info_details (h : Host) (item : Path h) (w : World h)
      (info : item_info) :
  entry_of h w item info ->
  exists st,
    stat item w = Ok st
    /\ item_modified info = st_mtime st
    /\ item_size info = (if item_is_file info then st_size st else 0)
    /\ is_symlink item w = Ok (item_is_symlink info).
Proof.
  unfold entry_of, make_item_info, bind, ask, ret.
  destruct (is_file item w) as [[|] | e] eqn:Hfile; cbv beta iota;
    try discriminate;
    destruct (stat item w) as [st | e] eqn:Hstat; cbv beta iota;
    try discriminate;
    rewrite ?Hstat; cbv beta iota;
    destruct (is_dir item w) as [isd | e]; cbv beta iota; try discriminate;
    rewrite ?Hfile; cbv beta iota;
    destruct (is_symlink item w) as [isl | e]; cbv beta iota;
    try discriminate;
    cbn [fst]; intros [= <-]; exists st; cbn; auto.
Qed.

Section Entries.
Variable h : Host.
Variables (show_hidden : bool) (filter_pattern : string).
Variables (w w' : World h) (items : list (Path h)).
Variables files directories : list item_info.

Hypothesis looped :
  browse_loop h show_hidden filter_pattern items [] [] w
  = (Ok (files, directories), w').

(** X23. The two lists of a finished loop do not overlap and are told
    apart by the flags of their entries: every directories entry has
    [is_dir] true, every files entry has [is_dir] false and [is_file]
    true. *)
Theorem listing_flags :
  (forall info, In info (sort_by_name h directories) ->
                item_is_dir info = true)
  /\ (forall info, In info (sort_by_name h files) ->
                   item_is_dir info = false /\ item_is_file info = true)
  /\ (forall info, ~ (In info (sort_by_name h files)
                      /\ In info (sort_by_name h directories))).
Proof.
  destruct (browse_loop_sound _ _ _ _ _ _ _ _ _ _ looped)
    as (_ & fs & ds & Hf & Hd & Hds & Hfs & _).
  cbn in Hf, Hd. subst fs ds.
  assert (Hdir : forall info, In info (sort_by_name h directories) ->
                              item_is_dir info = true).
  { intros info Hin. apply sort_by_name_in in Hin.
    destruct (Hds info Hin) as (item & _ & _ & Hentry & Hisd).
    apply make_item_info_fields in Hentry as (Hd & _). congruence. }
  assert (Hfile : forall info, In info (sort_by_name h files) ->
                               item_is_dir info = false
                               /\ item_is_file info = true).
  { intros info Hin. apply sort_by_name_in in Hin.
    destruct (Hfs info Hin) as (item & _ & _ & Hentry & Hisd & Hisf & _).
    apply make_item_info_fields in Hentry as (Hd & Hf & _).
    split; congruence. }
  split; [exact Hdir |]. split; [exact Hfile |].
  intros info [Hinf Hind].
  apply Hfile in Hinf as [Hno _]. apply Hdir in Hind. congruence.
Qed.

(** X24. Every returned entry describes a visited child of the
    directory: its name and path are the name and the string of the child,
    its time is the one [stat] reports, its symlink flag is the answer of
    the host (while the kind and size follow the target), and its size is
    the size [stat] reports for a regular file and 0 for anything else. *)
Theorem listing_entries_describe_children :
  forall info,
    In info (sort_by_name h files) \/ In info (sort_by_name h directories) ->
    exists item st,
      In item items
      /\ visible h show_hidden item = true
      /\ item_name info = path_name item
      /\ item_path info = path_str item
      /\ stat item w = Ok st
      /\ item_modified info = st_mtime st
      /\ item_size info = (if item_is_file info then st_size st else 0)
      /\ is_dir item w = Ok (item_is_dir info)
      /\ is_file item w = Ok (item_is_file info)
      /\ is_symlink item w = Ok (item_is_symlink info).
Proof.
  destruct (browse_loop_sound _ _ _ _ _ _ _ _ _ _ looped)
    as (_ & fs & ds & Hf & Hd & Hds & Hfs & _).
  cbn in Hf, Hd. subst fs ds.
  assert (Hentry : forall info,
             In info (sort_by_name h files)
             \/ In info (sort_by_name h directories) ->
             exists item, In item items
                          /\ visible h show_hidden item = true
                          /\ entry_of h w item info).
  { intros info [Hin | Hin]; apply sort_by_name_in in Hin.
    - destruct (Hfs info Hin) as (item & ? & ? & ? & _). eauto.
    - destruct (Hds info Hin) as (item & ? & ? & ? & _). eauto. }
  intros info Hin.
  destruct (Hentry info Hin) as (item & Hitem & Hvis & He).
  destruct (make_item_info_details h item w info He)
    as (st & Hstat & Hmod & Hsize & Hlink).
  destruct (make_item_info_fields h item w info He)
    as (Hd & Hf & Hname & Hpath).
  exists item, st. repeat split; assumption.
Qed.

End Entries.

(* ================================================================= *)
(** ** read_file within the declared range of the ceiling *)

(** X25. Whatever ceiling the declared range of [max_size_mb] (1 to 100)
    admits, an existing regular file of at most one mebibyte is never
    refused as too large, and one of more than a hundred mebibytes always
    is. *)
Theorem read_file_declared_ceiling (h : Host) (file_path encoding : string)
        (max_size_mb : Z) (w : World h) (path : Path h) (st : stat_result) :
  admits max_size_mb_input max_size_mb ->
  resolve file_path w = Ok path ->
  path_exists path w = Ok true ->
  is_file path w = Ok true ->
  stat path w = Ok st ->
  (st_size st <= 1048576 ->
   read_file h file_path encoding max_size_mb w
   = try_except (read_and_describe h path encoding (st_size st))
                [(Exception, status_error h)] w)
  /\ (st_size st > 104857600 ->
      read_file h file_path encoding max_size_mb w
      = (Ok (too_large_outcome h (st_size st) max_size_mb), w)).
Proof.
  unfold admits, max_size_mb_input. cbn [int_min int_max].
  intros Hrange Hres Hex Hfile Hstat.
  unfold read_file, read_body.
  split; intros Hsize; unfold try_except at 1; unfold bind, ask;
    feed Hres; feed Hex; feed Hfile; feed Hstat; cbv zeta.
  - replace (st_size st >? max_size_mb * 1024 * 1024) with false
      by (symmetry; rewrite Z.gtb_ltb; apply Z.ltb_ge; lia).
    reflexivity.
  - replace (st_size st >? max_size_mb * 1024 * 1024) with true
      by (symmetry; apply Z.gtb_lt; lia).
    reflexivity.
Qed.

(* ================================================================= *)
(** ** More runs on the sample world *)

Module MoreRuns.

Lemma write_file_refuses_existing_witness :
  write_file Sim.host "/home/proj/a.txt" "bye" "utf-8" false Sim.sample
  = (Ok ("Error: File exists and overwrite is False",
         dumps Sim.host (JDict [("error", JStr "File exists");
                                ("path", JStr "/home/proj/a.txt")])),
     Sim.sample).
Proof.
  apply (write_file_refuses_existing
           Sim.host "/home/proj/a.txt" "bye" "utf-8" false Sim.sample
           ["home"; "proj"; "a.txt"] eq_refl);
    reflexivity.
Defined.

Lemma write_file_writes_witness :
  let new := ["home"; "proj"; "new.txt"] in
  let after := Sim.put new (Sim.File 5 "hello") Sim.sample in
  write_file Sim.host "/home/proj/new.txt" "hello" "utf-8" false Sim.sample
  = (Ok ("Successfully wrote 5 characters to new.txt",
         dumps_indent Sim.host
           (JDict [("name", JStr "new.txt");
                   ("path", JStr "/home/proj/new.txt");
                   ("size", JInt 5);
                   ("modified", JFloat Sim.epoch);
                   ("encoding", JStr "utf-8")])),
     after).
Proof.
  intros new after.
  apply (write_file_writes
           Sim.host "/home/proj/new.txt" "hello" "utf-8" false Sim.sample
           new eq_refl false Sim.sample after (Stat 5 Sim.epoch));
    reflexivity.
Defined.

(** Writing a character outside ASCII under the [ascii] codec: the node
    reports the error, and the new directory and an empty file are left
    behind. *)
Lemma write_file_failure_is_not_rolled_back_witness :
  let dir := ["home"; "new"] in
  let file := ["home"; "new"; "f.txt"] in
  let after := Sim.put file (Sim.File 0 EmptyString)
                       (Sim.put dir (Sim.Dir true) Sim.sample) in
  write_file Strict.host "/home/new/f.txt" Strict.e_acute "ascii" false
             Sim.sample
  = (Ok ("Error: " ++ exn_str Strict.cannot_encode,
         error_payload Strict.host (exn_str Strict.cannot_encode)),
     after)
  /\ path_exists (h:=Strict.host) file Sim.sample = Ok false
  /\ path_exists (h:=Strict.host) file after = Ok true.
Proof.
  intros dir file after.
  split; [| split; reflexivity].
  apply (write_file_failure_is_not_rolled_back
           Strict.host "/home/new/f.txt" Strict.e_acute "ascii" false
           Sim.sample file eq_refl false
           (Sim.put dir (Sim.Dir true) Sim.sample) after
           Strict.cannot_encode);
    reflexivity.
Defined.

Lemma write_then_read_round_trip_witness :
  let new := ["home"; "proj"; "new.txt"] in
  let after := Sim.put new (Sim.File 5 "hello") Sim.sample in
  (write_file Sim.host "/home/proj/new.txt" "hello" "utf-8" true ;;;
   read_file Sim.host "/home/proj/new.txt" "utf-8" 10) Sim.sample
  = (Ok ("hello",
         dumps_indent Sim.host
           (JDict [("name", JStr "new.txt");
                   ("path", JStr "/home/proj/new.txt");
                   ("size", JInt 5);
                   ("modified", JFloat Sim.epoch);
                   ("encoding", JStr "utf-8")])),
     after).
Proof.
  intros new after.
  apply (write_then_read_round_trip
           Sim.host "/home/proj/new.txt" "hello" "utf-8" true Sim.sample
           new eq_refl false Sim.sample after (Stat 5 Sim.epoch) 10);
    try reflexivity.
  cbn. lia.
Defined.

Lemma copy_file_resolves_destination_first_witness :
  path_exists (h:=Sim.host) ["home"; "nope"] Sim.sample = Ok false
  /\ copy_file Sim.host "/home/nope" (String (ascii_of_nat 0) "x") false
               Sim.sample
     = (Ok ("Error: embedded null byte",
            error_payload Sim.host "embedded null byte"), Sim.sample).
Proof.
  split; [reflexivity |].
  apply (copy_file_resolves_destination_first
           Sim.host "/home/nope" (String (ascii_of_nat 0) "x") false
           Sim.sample ["home"; "nope"] eq_refl
           (Sim.no_detail ValueError "embedded null byte")).
  reflexivity.
Defined.

Lemma copy_file_guards_witness :
  copy_file Sim.host "/home/nope" "/home/x" false Sim.sample
  = (Ok ("Error: Source file does not exist",
         error_payload Sim.host "Source does not exist"), Sim.sample)
  /\ copy_file Sim.host "/home/proj" "/home/x" false Sim.sample
     = (Ok ("Error: Source is not a file",
            error_payload Sim.host "Source is not a file"), Sim.sample)
  /\ copy_file Sim.host "/home/proj/a.txt" "/home/proj/b.py" false Sim.sample
     = (Ok ("Error: Destination exists and overwrite is False",
            error_payload Sim.host "Destination exists"), Sim.sample).
Proof.
  split; [| split].
  - apply (proj1 (copy_file_guards
                    Sim.host "/home/nope" "/home/x" false Sim.sample
                    ["home"; "nope"] ["home"; "x"] eq_refl eq_refl)).
    reflexivity.
  - apply (proj1 (proj2 (copy_file_guards
                           Sim.host "/home/proj" "/home/x" false Sim.sample
                           ["home"; "proj"] ["home"; "x"] eq_refl eq_refl)));
      reflexivity.
  - apply (proj2 (proj2 (copy_file_guards
                           Sim.host "/home/proj/a.txt" "/home/proj/b.py"
                           false Sim.sample
                           ["home"; "proj"; "a.txt"] ["home"; "proj"; "b.py"]
                           eq_refl eq_refl)));
      reflexivity.
Defined.

Lemma copy_file_copies_witness :
  let dir := ["home"; "backup"] in
  let copy := ["home"; "backup"; "a.txt"] in
  let made := Sim.put dir (Sim.Dir true) Sim.sample in
  let after := Sim.put copy (Sim.File 5 "hello") made in
  copy_file Sim.host "/home/proj/a.txt" "/home/backup/a.txt" false Sim.sample
  = (Ok ("Successfully copied a.txt to /home/backup/a.txt",
         dumps_indent Sim.host
           (JDict [("source", JStr "/home/proj/a.txt");
                   ("destination", JStr "/home/backup/a.txt");
                   ("size", JInt 5);
                   ("modified", JFloat Sim.epoch)])),
     after)
  /\ read_text (h:=Sim.host) copy "utf-8" after = Ok "hello".
Proof.
  intros dir copy made after. split; [| reflexivity].
  apply (copy_file_copies
           Sim.host "/home/proj/a.txt" "/home/backup/a.txt" false Sim.sample
           ["home"; "proj"; "a.txt"] copy eq_refl eq_refl
           false made after (Stat 5 Sim.epoch));
    reflexivity.
Defined.

Lemma delete_file_confirmed_witness :
  delete_file Sim.host "/home/nope" true Sim.sample
  = (Ok "Error: File does not exist: /home/nope", Sim.sample)
  /\ delete_file Sim.host "/home/proj" true Sim.sample
     = (Ok "Error: Path is not a file: /home/proj", Sim.sample)
  /\ delete_file Sim.host "/home/big.bin" true Sim.sample
     = (Ok "Successfully deleted: /home/big.bin",
        snd (Sim.unlink ["home"; "big.bin"] Sim.sample))
  /\ path_exists (h:=Sim.host) ["home"; "big.bin"]
                 (snd (Sim.unlink ["home"; "big.bin"] Sim.sample))
     = Ok false.
Proof.
  split; [| split; [| split; [| reflexivity]]].
  - apply (proj1 (delete_file_confirmed
                    Sim.host "/home/nope" Sim.sample ["home"; "nope"]
                    eq_refl)).
    reflexivity.
  - apply (proj1 (proj2 (delete_file_confirmed
                           Sim.host "/home/proj" Sim.sample Sim.proj
                           eq_refl)));
      reflexivity.
  - apply (proj2 (proj2 (delete_file_confirmed
                           Sim.host "/home/big.bin" Sim.sample
                           ["home"; "big.bin"] eq_refl)));
      reflexivity.
Defined.

Lemma create_directory_fresh_witness :
  create_directory Sim.host "/home/x" false Sim.sample
  = (Ok ("Successfully created directory: /home/x",
         dumps_indent Sim.host (JDict [("path", JStr "/home/x");
                                       ("created", JBool true);
                                       ("modified", JFloat Sim.epoch)])),
     Sim.put ["home"; "x"] (Sim.Dir true) Sim.sample)
  /\ create_directory Sim.host "/home/x/y" false Sim.sample
     = (Ok ("Error: " ++ exn_str (Sim.no_such ["home"; "x"; "y"]),
            error_payload Sim.host (exn_str (Sim.no_such ["home"; "x"; "y"]))),
        Sim.sample).
Proof.
  split.
  - apply (proj1 (create_directory_fresh
                    Sim.host "/home/x" false Sim.sample ["home"; "x"]
                    eq_refl eq_refl)
                 (Sim.put ["home"; "x"] (Sim.Dir true) Sim.sample)
                 (Stat 4096 Sim.epoch));
      reflexivity.
  - apply (proj2 (create_directory_fresh
                    Sim.host "/home/x/y" false Sim.sample ["home"; "x"; "y"]
                    eq_refl eq_refl)
                 (Sim.no_such ["home"; "x"; "y"]) Sim.sample).
    reflexivity.
Defined.

Lemma create_directory_twice_witness :
  (create_directory Sim.host "/home/x" true ;;;
   create_directory Sim.host "/home/x" true) Sim.sample
  = (Ok ("Directory already exists: /home/x",
         dumps Sim.host (JDict [("path", JStr "/home/x");
                                ("exists", JBool true)])),
     Sim.put ["home"; "x"] (Sim.Dir true) Sim.sample).
Proof.
  apply (create_directory_twice
           Sim.host "/home/x" true Sim.sample
           (Sim.put ["home"; "x"] (Sim.Dir true) Sim.sample)
           ["home"; "x"] (Stat 4096 Sim.epoch));
    reflexivity.
Defined.

Lemma execute_command_rejects_bad_directory_witness :
  execute_command Sim.host "echo hi" (Some "/home/nope") 30 true Sim.sample
  = (Ok (EmptyString,
         "Error: Working directory does not exist: /home/nope", -1),
     Sim.sample)
  /\ execute_command Sim.host "echo hi" (Some "/home/proj/a.txt") 30 true
                      Sim.sample
     = (Ok (EmptyString,
            "Error: Working directory does not exist: /home/proj/a.txt", -1),
        Sim.sample).
Proof.
  split.
  - apply (execute_command_rejects_bad_directory
             Sim.host "echo hi" "/home/nope" 30 true Sim.sample
             ["home"; "nope"] eq_refl eq_refl).
    left. reflexivity.
  - apply (execute_command_rejects_bad_directory
             Sim.host "echo hi" "/home/proj/a.txt" 30 true Sim.sample
             ["home"; "proj"; "a.txt"] eq_refl eq_refl).
    right. split; reflexivity.
Defined.

Lemma execute_command_without_directory_witness :
  execute_command Sim.host "echo hi" None 30 true Sim.sample
  = (Ok ("hi" ++ newline, EmptyString, 0), Sim.sample)
  /\ execute_command Sim.host "echo hi" (Some EmptyString) 30 true Sim.sample
     = (Ok ("hi" ++ newline, EmptyString, 0), Sim.sample).
Proof.
  split.
  - apply (execute_command_without_directory
             Sim.host "echo hi" None 30 Sim.sample Sim.sample
             (Child ("hi" ++ newline) EmptyString 0));
      [now left | reflexivity].
  - apply (execute_command_without_directory
             Sim.host "echo hi" (Some EmptyString) 30 Sim.sample Sim.sample
             (Child ("hi" ++ newline) EmptyString 0));
      [now right | reflexivity].
Defined.

Lemma captured_run_returns_child_output_witness :
  execute_command Sim.host "echo hi" (Some "/home/proj") 30 true Sim.sample
  = (Ok ("hi" ++ newline, EmptyString, 0), Sim.sample).
Proof.
  apply (captured_run_returns_child_output
           Sim.host "echo hi" (Some "/home/proj") 30
           Sim.sample Sim.sample Sim.sample (Some Sim.proj)
           (Child ("hi" ++ newline) EmptyString 0));
    reflexivity.
Defined.

Lemma failed_launch_gives_minus_one_witness :
  execute_command Strict.host (String (ascii_of_nat 0) "ls") None 30 true
                  Sim.sample
  = (Ok (EmptyString, "Error: embedded null byte", -1), Sim.sample).
Proof.
  apply (failed_launch_gives_minus_one
           Strict.host (String (ascii_of_nat 0) "ls") None 30 true
           Sim.sample Sim.sample Sim.sample None
           (Sim.no_detail ValueError "embedded null byte"));
    reflexivity.
Defined.

Lemma read_file_guards_witness :
  read_file Sim.host "/home/nope" "utf-8" 10 Sim.sample
  = (Ok ("Error: File does not exist",
         error_payload Sim.host "File does not exist"), Sim.sample)
  /\ read_file Sim.host "/home/proj" "utf-8" 10 Sim.sample
     = (Ok ("Error: Path is not a file",
            error_payload Sim.host "Path is not a file"), Sim.sample).
Proof.
  split.
  - apply (proj1 (read_file_guards
                    Sim.host "/home/nope" "utf-8" 10 Sim.sample
                    ["home"; "nope"] eq_refl)).
    reflexivity.
  - apply (proj2 (read_file_guards
                    Sim.host "/home/proj" "utf-8" 10 Sim.sample Sim.proj
                    eq_refl));
      reflexivity.
Defined.

Lemma read_file_reads_witness :
  let file_info encoding :=
    dumps_indent Sim.host (JDict [("name", JStr "a.txt");
                                  ("path", JStr "/home/proj/a.txt");
                                  ("size", JInt 5);
                                  ("modified", JFloat Sim.epoch);
                                  ("encoding", JStr encoding)]) in
  read_file Sim.host "/home/proj/a.txt" "utf-8" 10 Sim.sample
  = (Ok ("hello", file_info "utf-8"), Sim.sample)
  /\ read_file Sim.host "/home/proj/a.txt" "binary" 10 Sim.sample
     = (Ok ("[Binary file - Base64 encoded]" ++ newline ++ "aGVsbG8=",
            file_info "binary"), Sim.sample).
Proof.
  intros file_info. split.
  - apply (proj1 (read_file_reads
                    Sim.host "/home/proj/a.txt" "utf-8" 10 Sim.sample
                    ["home"; "proj"; "a.txt"] (Stat 5 Sim.epoch)
                    eq_refl eq_refl eq_refl eq_refl
                    ltac:(cbn; lia)));
      [discriminate | reflexivity].
  - apply (proj2 (read_file_reads
                    Sim.host "/home/proj/a.txt" "binary" 10 Sim.sample
                    ["home"; "proj"; "a.txt"] (Stat 5 Sim.epoch)
                    eq_refl eq_refl eq_refl eq_refl
                    ltac:(cbn; lia))
                 (list_ascii_of_string "hello"));
      reflexivity.
Defined.

(** A null character in the path, and a path below a directory that
    cannot be searched: the second failure is a [PermissionError], and is
    reported with its own text. *)
Lemma browse_files_probe_failure_witness :
  browse_files Sim.host (String (ascii_of_nat 0) "x") false "*" Sim.sample
  = (Ok (error_payload Sim.host "embedded null byte",
         error_payload Sim.host "embedded null byte",
         String (ascii_of_nat 0) "x"), Sim.sample)
  /\ browse_files Strict.host "/home/secret/x" false "*" Sim.sample
     = (Ok (error_payload Strict.host
              "[Errno 13] Permission denied: '/home/secret/x'",
            error_payload Strict.host
              "[Errno 13] Permission denied: '/home/secret/x'",
            "/home/secret/x"), Sim.sample).
Proof.
  split.
  - apply (proj1 (browse_files_probe_failure
                    Sim.host (String (ascii_of_nat 0) "x") false "*"
                    Sim.sample
                    (Sim.no_detail ValueError "embedded null byte"))).
    reflexivity.
  - apply (proj2 (browse_files_probe_failure
                    Strict.host "/home/secret/x" false "*" Sim.sample
                    (Sim.errno PermissionError "13" "Permission denied"
                               ["home"; "secret"; "x"]))
                 ["home"; "secret"; "x"]);
      reflexivity.
Defined.

Lemma browse_files_enumeration_failure_witness :
  browse_files Sim.host "/home/proj" false EmptyString Sim.sample
  = (Ok (error_payload Sim.host "empty pattern",
         error_payload Sim.host "empty pattern",
         "/home/proj"), Sim.sample).
Proof.
  apply (browse_files_enumeration_failure
           Sim.host "/home/proj" false EmptyString Sim.sample Sim.sample
           Sim.proj (Sim.no_detail ValueError "empty pattern"));
    reflexivity.
Defined.

Lemma listing_flags_witness :
  item_is_dir (Sim.entry "Sub" 0 true false) = true
  /\ (item_is_dir (Sim.entry "a.txt" 5 false true) = false
      /\ item_is_file (Sim.entry "a.txt" 5 false true) = true)
  /\ ~ (In (Sim.entry "Sub" 0 true false)
           (sort_by_name Sim.host
              [Sim.entry "a.txt" 5 false true;
               Sim.entry "Zed.txt" 0 false true])
        /\ In (Sim.entry "Sub" 0 true false)
              (sort_by_name Sim.host [Sim.entry "Sub" 0 true false])).
Proof.
  pose proof (listing_flags
                Sim.host false "*.txt" Sim.sample Sim.sample Sim.children
                [Sim.entry "a.txt" 5 false true;
                 Sim.entry "Zed.txt" 0 false true]
                [Sim.entry "Sub" 0 true false] eq_refl)
    as (Hdir & Hfile & Hapart).
  split; [apply Hdir; cbn; now left |].
  split; [apply Hfile; cbn; now left | apply Hapart].
Defined.

Lemma listing_entries_describe_children_witness :
  exists (item : Path Sim.host) (st : stat_result),
    In item Sim.children
    /\ visible Sim.host false item = true
    /\ item_name (Sim.entry "Sub" 0 true false) = path_name item
    /\ item_path (Sim.entry "Sub" 0 true false) = path_str item
    /\ stat item Sim.sample = Ok st
    /\ item_modified (Sim.entry "Sub" 0 true false) = st_mtime st
    /\ item_size (Sim.entry "Sub" 0 true false)
       = (if item_is_file (Sim.entry "Sub" 0 true false)
          then st_size st else 0)
    /\ is_dir item Sim.sample = Ok (item_is_dir (Sim.entry "Sub" 0 true false))
    /\ is_file item Sim.sample
       = Ok (item_is_file (Sim.entry "Sub" 0 true false))
    /\ is_symlink item Sim.sample
       = Ok (item_is_symlink (Sim.entry "Sub" 0 true false)).
Proof.
  apply (listing_entries_describe_children
           Sim.host false "*.txt" Sim.sample Sim.sample Sim.children
           [Sim.entry "a.txt" 5 false true; Sim.entry "Zed.txt" 0 false true]
           [Sim.entry "Sub" 0 true false] eq_refl
           (Sim.entry "Sub" 0 true false)).
  right. cbn. now left.
Defined.

Lemma read_file_declared_ceiling_witness :
  admits max_size_mb_input 100
  /\ read_file Sim.host "/home/proj/a.txt" "utf-8" 100 Sim.sample
     = try_except
         (read_and_describe Sim.host ["home"; "proj"; "a.txt"] "utf-8" 5)
         [(Exception, status_error Sim.host)] Sim.sample
  /\ read_file Sim.host "/home/huge.iso" "utf-8" 100 Strict.archive
     = (Ok ("Error: File too large (200.00 MB > 100 MB)",
            dumps Sim.host (JDict [("error", JStr "File too large");
                                   ("size", JInt 209715200)])),
        Strict.archive).
Proof.
  split; [cbv; split; discriminate |]. split.
  - apply (proj1 (read_file_declared_ceiling
                    Sim.host "/home/proj/a.txt" "utf-8" 100 Sim.sample
                    ["home"; "proj"; "a.txt"] (Stat 5 Sim.epoch)
                    ltac:(cbv; split; discriminate)
                    eq_refl eq_refl eq_refl eq_refl)).
    cbn. lia.
  - apply (proj2 (read_file_declared_ceiling
                    Sim.host "/home/huge.iso" "utf-8" 100 Strict.archive
                    ["home"; "huge.iso"] (Stat 209715200 Sim.epoch)
                    ltac:(cbv; split; discriminate)
                    eq_refl eq_refl eq_refl eq_refl)).
    cbn. lia.
Defined.

End MoreRuns.
